(** * pereggrn_networks: a shallow embedding of [pereggrn_networks.py]

    The module under study is a thin layer over three things: the Python
    runtime (strings, exceptions, [os.environ], [os.path]), pandas
    (DataFrames) and duckdb (SQL text evaluated against parquet files and
    against DataFrames in scope).  The embedding follows that layering:

    - Python values and exceptions: [exn], [result], the string helpers;
    - pandas: [DataFrame], [pd_concat], [Series_unique], ...;
    - duckdb: a lexer, a parser and an evaluator for the SQL statements the
      module builds by string interpolation ([Module duckdb]);
    - the module itself: [Module LightNetwork], [list_subnetworks],
      [load_grn_by_subnetwork], [validate_grn]. *)

From Stdlib Require Import ZArith String Ascii List Bool Lia QArith Qcanon.
From stdpp Require Import base option list gmap strings.

Local Open Scope string_scope.

(** ** Python exceptions and fallible computations *)

(** One constructor per exception class the module can raise, directly or
    through pandas and duckdb.  The payload is the message (for [KeyError],
    the key).  [OutsideModel] is no exception of Python: it marks the
    inputs on which the embedding of duckdb does not say what the engine
    does (a file name that is a pattern or a URL, or that names another
    file format); no statement below concludes it. *)
Inductive exn : Type :=
| ValueError (msg : string)
| AssertionError (msg : string)
| FileNotFoundError (msg : string)
| NotADirectoryError (msg : string)
| KeyError (key : string)
| IndexError (msg : string)
| TypeError (msg : string)
| InvalidIndexError (msg : string)
| ParserException (msg : string)
| CatalogException (msg : string)
| BinderException (msg : string)
| IOException (msg : string)
| InvalidInputException (msg : string)
| OutsideModel (what : string).

Inductive result (A : Type) : Type :=
| Ok (a : A)
| Raise (e : exn).
Arguments Ok {A} a.
Arguments Raise {A} e.

#[global] Instance result_ret : MRet result := fun A a => Ok a.
#[global] Instance result_bind : MBind result := fun A B f m =>
  match m with
  | Ok a => f a
  | Raise e => Raise e
  end.
#[global] Instance result_fmap : FMap result := fun A B f m =>
  match m with
  | Ok a => Ok (f a)
  | Raise e => Raise e
  end.

(** [assert c, msg] *)
Definition py_assert (c : bool) (msg : string) : result unit :=
  if c then Ok tt else Raise (AssertionError msg).

(** [for x in l: body(x)] for a body that only raises or continues. *)
Fixpoint for_each {A : Type} (body : A → result unit) (l : list A) : result unit :=
  match l with
  | [] => Ok tt
  | x :: l' => _ ← body x; for_each body l'
  end.

(** [[f(x) for x in l]] for a fallible [f]. *)
Fixpoint map_result {A B : Type} (f : A → result B) (l : list A) : result (list B) :=
  match l with
  | [] => Ok []
  | x :: l' => y ← f x; ys ← map_result f l'; Ok (y :: ys)
  end.

(** [[x for x in l if p(x)]] for a fallible [p]. *)
Fixpoint filter_result {A : Type} (p : A → result bool) (l : list A) : result (list A) :=
  match l with
  | [] => Ok []
  | x :: l' =>
      b ← p x; ys ← filter_result p l'; Ok (if b : bool then x :: ys else ys)
  end.

(** ** Python strings *)

Definition startswith (s pre : string) : bool := String.prefix pre s.

Definition endswith (s suf : string) : bool :=
  String.prefix (String.rev suf) (String.rev s).

Definition lower_ascii (c : ascii) : ascii :=
  let n := nat_of_ascii c in
  if ((65 <=? n)%nat && (n <=? 90)%nat)%bool then ascii_of_nat (n + 32) else c.

(** [s.lower()], on ASCII strings. *)
Fixpoint lower (s : string) : string :=
  match s with
  | EmptyString => EmptyString
  | String c s' => String (lower_ascii c) (lower s')
  end.

(** [sep.join(l)] *)
Fixpoint join (sep : string) (l : list string) : string :=
  match l with
  | [] => ""
  | [x] => x
  | x :: l' => x +:+ sep +:+ join sep l'
  end.

(** [os.path.join(a, *p)] of [posixpath]: an absolute component discards
    what precedes it; otherwise components are separated by exactly one
    slash unless the left part is empty or already ends with one. *)
Definition path_join2 (path b : string) : string :=
  if startswith b "/" then b
  else if (String.eqb path "" || endswith path "/")%bool then path +:+ b
  else path +:+ "/" +:+ b.

Definition os_path_join (a : string) (p : list string) : string :=
  fold_left path_join2 p a.

(** ** Python objects with identity

    The module never mutates a list or a table it holds, so an object is
    represented by its identity together with its contents; two references
    denote the same object exactly when the identities agree. *)
Record pyobj (A : Type) : Type := PyObj { oid : nat; val : A }.
Arguments PyObj {A} oid val.
Arguments oid {A} p.
Arguments val {A} p.

(** ** pandas *)

(** A table cell: a VARCHAR/str, a BIGINT/int, a DOUBLE/float (exact
    rationals stand for the floats; the module never does arithmetic on
    them) or a NULL/NaN. *)
Inductive cell : Type :=
| CStr (s : string)
| CInt (n : Z)
| CFloat (q : Qc)
| CNull.

#[global] Instance cell_eq_dec : EqDecision cell.
Proof. solve_decision. Defined.

#[global] Instance cell_countable : Countable cell.
Proof.
  refine (inj_countable'
    (fun c => match c with
              | CStr s => inl s
              | CInt n => inr (inl n)
              | CFloat q => inr (inr (inl q))
              | CNull => inr (inr (inr ()))
              end)
    (fun x => match x with
              | inl s => CStr s
              | inr (inl n) => CInt n
              | inr (inr (inl q)) => CFloat q
              | inr (inr (inr _)) => CNull
              end) _).
  intros []; reflexivity.
Defined.

Definition row : Type := list cell.

(** A DataFrame: the column labels and the rows in order (the row index
    plays no part in the module). *)
Record DataFrame : Type := mkDataFrame { columns : list string; rows : list row }.

(** [pd.DataFrame()] and [pd.DataFrame(columns = cols)] *)
Definition pd_DataFrame (cols : list string) : DataFrame :=
  {| columns := cols; rows := [] |}.

(** Position of a label among the column labels. *)
Fixpoint index_of (name : string) (cols : list string) : option nat :=
  match cols with
  | [] => None
  | c :: cols' => if String.eqb c name then Some 0%nat else S <$> index_of name cols'
  end.

(** The cell of row [r] under label [name]; NaN when the frame has no such
    column or the row is too short. *)
Definition cell_at (cols : list string) (name : string) (r : row) : cell :=
  match index_of name cols with
  | Some i => nth i r CNull
  | None => CNull
  end.

(** Row [r] of a frame with labels [old], laid out under labels [new]. *)
Definition reindex (new old : list string) (r : row) : row :=
  map (fun name => cell_at old name r) new.

(** Labels of the concatenation: first appearance order. *)
Definition union_columns (a b : list string) : list string :=
  a ++ filter (fun c => negb (bool_decide (c ∈ a))) b.

(** [pd.concat([a, b])]: rows of [a] then rows of [b], aligned on the union
    of the column labels, NaN where a frame lacks a column. *)
Definition pd_concat (a b : DataFrame) : DataFrame :=
  let cols := union_columns (columns a) (columns b) in
  {| columns := cols;
     rows := map (reindex cols (columns a)) (rows a)
             ++ map (reindex cols (columns b)) (rows b) |}.

(** [df[field]] for a column label: the Series of that column. *)
Definition DataFrame_getitem (df : DataFrame) (field : string) : result (list cell) :=
  match index_of field (columns df) with
  | Some i => Ok (map (fun r => nth i r CNull) (rows df))
  | None => Raise (KeyError field)
  end.

(** Distinct elements in order of first appearance. *)
Fixpoint dedup {A : Type} `{EqDecision A} (l : list A) : list A :=
  match l with
  | [] => []
  | x :: l' => x :: filter (fun y => negb (bool_decide (y = x))) (dedup l')
  end.

(** [Series.unique()] *)
Definition Series_unique (s : list cell) : list cell := dedup s.

(** [set(...)] of an array of cells. *)
Definition py_set (l : list cell) : gset cell := list_to_set l.

(** ** The file system and the process environment *)

(** What a path names: a directory with its entries, a parquet file with
    the table it stores, or any other file. *)
Inductive node : Type :=
| Dir (entries : list string)
| Parquet (t : DataFrame)
| OtherFile.

(** [os.environ] and the file system the process sees. *)
Record World : Type := mkWorld {
  environ : gmap string string;
  fs : gmap string node
}.

(** [os.path.exists(p)] *)
Definition os_path_exists (w : World) (p : string) : bool :=
  match fs w !! p with
  | Some _ => true
  | None => false
  end.

(** [os.path.isfile(p)] *)
Definition os_path_isfile (w : World) (p : string) : bool :=
  match fs w !! p with
  | Some (Dir _) | None => false
  | Some _ => true
  end.

(** The paths above [p]: what precedes each of its slashes, the root
    aside.  Paths are taken as written (no [.], [..] or doubled slash is
    resolved). *)
Fixpoint ancestors_from (pre s : string) : list string :=
  match s with
  | EmptyString => []
  | String c s' =>
      (if Ascii.eqb c "/" && negb (String.eqb pre "") then [pre] else [])
      ++ ancestors_from (pre +:+ String c "") s'
  end.

Definition ancestors (p : string) : list string := ancestors_from "" p.

(** [os.listdir(p)]: the entries of a directory.  A path that names a
    file, or that leads through one, is refused with NotADirectoryError
    (ENOTDIR); a path that names nothing, with FileNotFoundError
    (ENOENT). *)
Definition os_listdir (w : World) (p : string) : result (list string) :=
  match fs w !! p with
  | Some (Dir entries) => Ok entries
  | Some _ => Raise (NotADirectoryError p)
  | None =>
      if existsb (os_path_isfile w) (ancestors p)
      then Raise (NotADirectoryError p)
      else Raise (FileNotFoundError p)
  end.

(** [os.environ[key]] *)
Definition os_environ_getitem (w : World) (key : string) : result string :=
  match environ w !! key with
  | Some v => Ok v
  | None => Raise (KeyError key)
  end.

(** ** duckdb

    The module talks to duckdb only through SQL text, so the engine is
    modelled from the text on: [lex] and [parse_statement] read the
    statement, [eval_statement] runs it.  The grammar covers the statements
    the module writes,

      query  ::=  select { UNION select }
      select ::=  SELECT ( * | DISTINCT col ) FROM source [ WHERE x = y ]
      count  ::=  SELECT COUNT( * ) FROM ( query )  |  SELECT COUNT( * ) FROM source
      source ::=  'path'  |  name

    and anything else is rejected with a [ParserException].  The module
    stays inside this grammar as long as the file names and values it
    pastes between quotes contain no quote themselves, which is what the
    statements about query results below assume; of the rejections, the
    one relied on as such is that of a string literal left open.
    [UNION] is the SQL set union: the distinct rows of the operands.  The
    engine leaves the order of a [UNION] result open; the model lists
    rows by first appearance.

    The engine is modelled as far as the module's own use of it goes:
    parquet files under plain names ([plain_name]), tables whose columns
    are of one type throughout a query ([typed], [field_of_kind]), labels
    that differ by more than case.  Where the engine does more (glob
    patterns, other file formats, implicit casts), the definitions say
    so, and the statements about query results carry the corresponding
    hypothesis. *)
Module duckdb.

Inductive token : Type :=
| TWord (s : string)
| TStr (s : string)
| TStar
| TEq
| TLParen
| TRParen.

#[global] Instance token_eq_dec : EqDecision token.
Proof. solve_decision. Defined.

Definition quote : ascii := "'"%char.

Definition is_quote (c : ascii) : bool := Ascii.eqb c quote.

Definition is_space (c : ascii) : bool :=
  let n := nat_of_ascii c in
  ((n =? 32)%nat || (n =? 9)%nat || (n =? 10)%nat || (n =? 13)%nat)%bool.

Definition is_digit (c : ascii) : bool :=
  let n := nat_of_ascii c in ((48 <=? n)%nat && (n <=? 57)%nat)%bool.

Definition is_word_char (c : ascii) : bool :=
  let n := nat_of_ascii c in
  (is_digit c
   || ((65 <=? n)%nat && (n <=? 90)%nat)
   || ((97 <=? n)%nat && (n <=? 122)%nat)
   || (n =? 95)%nat)%bool.

Definition punct (c : ascii) : option token :=
  if Ascii.eqb c "*" then Some TStar
  else if Ascii.eqb c "=" then Some TEq
  else if Ascii.eqb c "(" then Some TLParen
  else if Ascii.eqb c ")" then Some TRParen
  else None.

(** Where the lexer is: between tokens, inside a word, inside a string
    literal, or just after a quote met inside a string literal (which
    either closes the literal or, doubled, stands for one quote). *)
Inductive lex_state : Type :=
| LDefault
| LWord (acc : string)
| LStr (acc : string)
| LStrQuote (acc : string).

Definition snoc_char (acc : string) (c : ascii) : string := acc +:+ String c "".

(** A character met between tokens: the next state and the tokens
    completed by it. *)
Definition lex_start (c : ascii) : result (lex_state * list token) :=
  if is_space c then Ok (LDefault, [])
  else if is_quote c then Ok (LStr "", [])
  else if is_word_char c then Ok (LWord (String c ""), [])
  else match punct c with
       | Some t => Ok (LDefault, [t])
       | None => Raise (ParserException "syntax error")
       end.

(** One character. *)
Definition lex_step (st : lex_state) (c : ascii) : result (lex_state * list token) :=
  match st with
  | LDefault => lex_start c
  | LWord acc =>
      if is_word_char c then Ok (LWord (snoc_char acc c), [])
      else '(st', ts) ← lex_start c; Ok (st', TWord acc :: ts)
  | LStr acc =>
      if is_quote c then Ok (LStrQuote acc, [])
      else Ok (LStr (snoc_char acc c), [])
  | LStrQuote acc =>
      if is_quote c then Ok (LStr (snoc_char acc quote), [])
      else '(st', ts) ← lex_start c; Ok (st', TStr acc :: ts)
  end.

(** The characters of [s] from state [st]: the state reached and the
    tokens completed on the way. *)
Fixpoint lex_run (st : lex_state) (s : string) : result (lex_state * list token) :=
  match s with
  | EmptyString => Ok (st, [])
  | String c s' =>
      '(st1, ts1) ← lex_step st c;
      '(st2, ts2) ← lex_run st1 s';
      Ok (st2, (ts1 ++ ts2)%list)
  end.

(** End of input: the token under way is completed, except that a string
    literal must have been closed. *)
Definition lex_finish (st : lex_state) : result (list token) :=
  match st with
  | LDefault => Ok []
  | LWord acc => Ok [TWord acc]
  | LStr _ => Raise (ParserException "unterminated quoted string")
  | LStrQuote acc => Ok [TStr acc]
  end.

Definition lex_from (st : lex_state) (s : string) : result (list token) :=
  '(st', ts) ← lex_run st s;
  ts' ← lex_finish st';
  Ok (ts ++ ts')%list.

Definition lex (sql : string) : result (list token) := lex_from LDefault sql.

(** *** Syntax *)

Inductive source : Type :=
| SrcFile (path : string)
| SrcName (name : string).

Inductive operand : Type :=
| OCol (name : string)
| OStr (s : string)
| OInt (n : Z).

Inductive projection : Type :=
| PStar
| PDistinct (col : string).

Record select : Type := mkSelect {
  sel_proj : projection;
  sel_from : source;
  sel_where : option (operand * operand)
}.

Inductive statement : Type :=
| SQuery (sels : list select)
| SCountQuery (sels : list select)
| SCountFrom (src : source).

Definition is_kw (t : token) (kw : string) : bool :=
  match t with
  | TWord w => String.eqb w kw
  | _ => false
  end.

Fixpoint all_digits (s : string) : bool :=
  match s with
  | EmptyString => true
  | String c s' => is_digit c && all_digits s'
  end.

Fixpoint int_of_digits (acc : Z) (s : string) : Z :=
  match s with
  | EmptyString => acc
  | String c s' => int_of_digits (10 * acc + Z.of_nat (nat_of_ascii c - 48))%Z s'
  end.

Definition parse_source (t : token) : option source :=
  match t with
  | TStr p => Some (SrcFile p)
  | TWord n => Some (SrcName n)
  | _ => None
  end.

Definition parse_operand (t : token) : option operand :=
  match t with
  | TStr s => Some (OStr s)
  | TWord w => Some (if all_digits w then OInt (int_of_digits 0%Z w) else OCol w)
  | _ => None
  end.

Definition parse_where (toks : list token) : option (option (operand * operand)) :=
  match toks with
  | [] => Some None
  | [w; a; TEq; b] =>
      if is_kw w "WHERE"
      then a' ← parse_operand a; b' ← parse_operand b; Some (Some (a', b'))
      else None
  | _ => None
  end.

Definition parse_select (toks : list token) : option select :=
  match toks with
  | s :: TStar :: f :: src :: rest =>
      if is_kw s "SELECT" && is_kw f "FROM"
      then src' ← parse_source src; w ← parse_where rest;
           Some (mkSelect PStar src' w)
      else None
  | s :: d :: TWord col :: f :: src :: rest =>
      if is_kw s "SELECT" && is_kw d "DISTINCT" && is_kw f "FROM"
      then src' ← parse_source src; w ← parse_where rest;
           Some (mkSelect (PDistinct col) src' w)
      else None
  | _ => None
  end.

(** The token runs between the [UNION] keywords. *)
Fixpoint split_union (toks : list token) : list (list token) :=
  match toks with
  | [] => [[]]
  | t :: toks' =>
      if is_kw t "UNION" then [] :: split_union toks'
      else match split_union toks' with
           | seg :: segs => (t :: seg) :: segs
           | [] => [[t]]
           end
  end.

Definition parse_query (toks : list token) : option (list select) :=
  mapM parse_select (split_union toks).

Definition parse_statement (toks : list token) : option statement :=
  match toks with
  | s :: c :: TLParen :: TStar :: TRParen :: f :: rest =>
      if is_kw s "SELECT" && is_kw c "COUNT" && is_kw f "FROM"
      then match rest with
           | [src] => SCountFrom <$> parse_source src
           | TLParen :: rest' =>
               match rev rest' with
               | TRParen :: inner => SCountQuery <$> parse_query (rev inner)
               | _ => None
               end
           | _ => None
           end
      else None
  | _ => SQuery <$> parse_query toks
  end.

(** *** Evaluation *)

(** The characters that make a file name a glob pattern. *)
Definition is_glob_char (c : ascii) : bool :=
  Ascii.eqb c "*" || Ascii.eqb c "?" || Ascii.eqb c "[".

Fixpoint has_glob (s : string) : bool :=
  match s with
  | EmptyString => false
  | String c s' => is_glob_char c || has_glob s'
  end.

(** A name the engine does not take as the path of a local file as it
    stands: a glob pattern, a URL, a path under the home directory
    written with a tilde. *)
Definition is_url (p : string) : bool :=
  match String.index 0 "://" p with
  | Some _ => true
  | None => false
  end.

Definition special_name (p : string) : bool :=
  has_glob p || is_url p || startswith p "~".

(** The engine chooses the reader of a quoted name by its suffix, case
    aside. *)
Definition parquet_suffix (p : string) : bool := endswith (lower p) ".parquet".

Definition other_format (p : string) : bool :=
  existsb (endswith (lower p))
    [".csv"; ".tsv"; ".json"; ".jsonl"; ".ndjson"; ".gz"; ".zst"].

(** A quoted name is no table of the catalog, so the engine tries its
    replacement scans: a name that ends in .parquet is read as a parquet
    file, and a name with no suffix the engine knows is refused with a
    Catalog error: the file system is not even looked at.  A bare name is
    looked up among the DataFrames in scope of the caller.

    Left outside the model: a special name (the engine expands a pattern
    against the file system, fetches a URL), a name with the suffix of
    another format the engine reads, and a directory named like a parquet
    file. *)
Definition scan (w : World) (scope : list (string * DataFrame)) (src : source)
  : result DataFrame :=
  match src with
  | SrcFile p =>
      if special_name p then Raise (OutsideModel "special name")
      else if parquet_suffix p
      then
        match fs w !! p with
        | Some (Parquet t) => Ok t
        | Some OtherFile =>
            Raise (InvalidInputException "No magic bytes found at end of file")
        | Some (Dir _) => Raise (OutsideModel "directory")
        | None => Raise (IOException ("No files found that match the pattern " +:+ p))
        end
      else if other_format p then Raise (OutsideModel "file format")
      else Raise (CatalogException ("Table with name " +:+ p +:+ " does not exist!"))
  | SrcName n =>
      match list_find (fun e => fst e = n) scope with
      | Some (_, (_, t)) => Ok t
      | None => Raise (CatalogException ("Table with name " +:+ n +:+ " does not exist!"))
      end
  end.

(** The column an identifier denotes: identifiers are matched without
    regard to case, and keep the spelling of the table. *)
Definition index_of_ci (name : string) (cols : list string) : option nat :=
  index_of (lower name) (map lower cols).

(** An operand bound against the columns of the scanned table. *)
Definition bind_operand (cols : list string) (o : operand) : result (row → cell) :=
  match o with
  | OCol c =>
      match index_of_ci c cols with
      | Some i => Ok (fun r => nth i r CNull)
      | None => Raise (BinderException ("Referenced column " +:+ c +:+ " not found"))
      end
  | OStr s => Ok (fun _ => CStr s)
  | OInt n => Ok (fun _ => CInt n)
  end.

(** [x = y] in a [WHERE], for operands of one type: NULL equals nothing.
    When the types differ the engine casts one operand (a string literal
    to the type of the column, say) or refuses to; the cast is not
    modelled, and the operands are then reported different.  The
    statements below about filtered queries are about text columns, where
    no cast takes place. *)
Definition sql_eq (a b : cell) : bool :=
  match a, b with
  | CNull, _ | _, CNull => false
  | _, _ => bool_decide (a = b)
  end.

Definition eval_select (w : World) (scope : list (string * DataFrame)) (q : select)
  : result DataFrame :=
  t ← scan w scope (sel_from q);
  kept ← match sel_where q with
         | None => Ok (rows t)
         | Some (a, b) =>
             fa ← bind_operand (columns t) a;
             fb ← bind_operand (columns t) b;
             Ok (filter (fun r => sql_eq (fa r) (fb r)) (rows t))
         end;
  match sel_proj q with
  | PStar => Ok {| columns := columns t; rows := kept |}
  | PDistinct col =>
      match index_of_ci col (columns t) with
      | Some i => Ok {| columns := [nth i (columns t) col];
                        rows := dedup (map (fun r => [nth i r CNull]) kept) |}
      | None => Raise (BinderException ("Referenced column " +:+ col +:+ " not found"))
      end
  end.

Definition same_arity (t t' : DataFrame) : bool :=
  (length (columns t') =? length (columns t))%nat.

(** [t1 UNION t2 UNION ...]: the operands must have as many columns as
    the first; the result carries the first operand's labels and the
    distinct rows of all.  A single operand is returned as it is.
    Operands whose columns differ in type are brought to a common type by
    the engine before the rows are compared; that conversion is not
    modelled, and the statements below about unions are about operands of
    the same column types ([typed]). *)
Definition eval_union (ts : list DataFrame) : result DataFrame :=
  match ts with
  | [] => Raise (ParserException "syntax error")
  | [t] => Ok t
  | t :: ts' =>
      if forallb (same_arity t) ts'
      then Ok {| columns := columns t; rows := dedup (concat (map rows ts)) |}
      else Raise (BinderException
             "Set operations can only apply to expressions with the same number of result columns")
  end.

Definition eval_query (w : World) (scope : list (string * DataFrame)) (sels : list select)
  : result DataFrame :=
  ts ← map_result (eval_select w scope) sels;
  eval_union ts.

Definition count_star (t : DataFrame) : DataFrame :=
  {| columns := ["count_star()"]; rows := [[CInt (Z.of_nat (length (rows t)))]] |}.

Definition eval_statement (w : World) (scope : list (string * DataFrame)) (st : statement)
  : result DataFrame :=
  match st with
  | SQuery sels => eval_query w scope sels
  | SCountQuery sels => count_star <$> eval_query w scope sels
  | SCountFrom src => count_star <$> scan w scope src
  end.

(** [duckdb.query(sql).df()] and [con.execute(sql).df()], with the
    DataFrames a replacement scan can see. *)
Definition query (w : World) (scope : list (string * DataFrame)) (sql : string)
  : result DataFrame :=
  toks ← lex sql;
  match parse_statement toks with
  | Some st => eval_statement w scope st
  | None => Raise (ParserException "syntax error")
  end.

End duckdb.

(** ** The module *)

Definition nl : string := String (ascii_of_nat 10) "".

Definition EXPECTED_GRN_COLNAMES : list string := ["regulator"; "target"; "weight"].

Definition not_found_help : string :=
  "Network data files not found. Try checking: " +:+ nl +:+
  "- pereggrn_networks.load_grn_metadata() or pereggrn_networks.list_subnetworks() for network names, "
  +:+ nl +:+
  "- pereggrn_networks.debug_grn_location() or pereggrn_networks.set_grn_path() for the path to the collection.".

(** [list_subnetworks(grn_name)]: the entries of
    [$GRN_PATH/<grn_name>/networks] that are not hidden.  A missing
    variable or directory is reported as [FileNotFoundError]; any other
    exception passes through. *)
Definition list_subnetworks (w : World) (grn_name : string) : result (list string) :=
  match root ← os_environ_getitem w "GRN_PATH";
        os_listdir w (os_path_join root [grn_name; "networks"]) with
  | Ok entries => Ok (filter (fun f => negb (startswith f ".")) entries)
  | Raise (KeyError _) | Raise (FileNotFoundError _) =>
      Raise (FileNotFoundError not_found_help)
  | Raise e => Raise e
  end.

Definition get_grn_location (w : World) : result string :=
  os_environ_getitem w "GRN_PATH".

(** [df.columns[0:3] == [...]]: element-wise on equal lengths; pandas
    refuses to compare an Index with a list of another length (with a
    ValueError whose wording depends on the version). *)
Definition Index_eq (a b : list string) : result (list bool) :=
  if (length a =? length b)%nat then Ok (zip_with String.eqb a b)
  else Raise (ValueError "Lengths must match to compare").

(** [df.columns[i]] *)
Definition Index_getitem (cols : list string) (i : nat) : result string :=
  match cols !! i with
  | Some c => Ok c
  | None => Raise (IndexError "index out of bounds")
  end.

Definition py_all (l : list bool) : bool := forallb id l.

(** [df.iloc[0,0]] *)
Definition iloc_0_0 (t : DataFrame) : result cell :=
  match rows t with
  | (c :: _) :: _ => Ok c
  | _ => Raise (IndexError "single positional indexer is out-of-bounds")
  end.

(** [int(a + b)] for the two counts. *)
Definition int_add (a b : cell) : result Z :=
  match a, b with
  | CInt x, CInt y => Ok (x + y)%Z
  | _, _ => Raise (TypeError "unsupported operand type(s) for +")
  end.

(** [df.to_parquet(filename)] *)
Definition to_parquet (w : World) (d : DataFrame) (filename : string) : World :=
  {| environ := environ w; fs := <[filename := Parquet d]> (fs w) |}.

Module LightNetwork.

(** An instance holds the two attributes [self.files] and [self.df]; both
    are references to objects the caller may hold as well.  Instances
    are told apart by their attributes only: the identity of the instance
    itself is not represented. *)
Record t : Type := mk {
  files : pyobj (list string);
  df : option (pyobj DataFrame)
}.

(** [f"'{file}'"] *)
Definition format_file (file : string) : string := "'" +:+ file +:+ "'".

(** [LightNetwork(grn_name, subnetwork_names, files, df)].  [fresh] is the
    identity of the list that [files + [...]] builds when a source is
    named.  That [subnetwork_names] is a list (first assertion) is part of
    its type here. *)
Definition __init__ (w : World) (fresh : nat)
    (grn_name : option string) (subnetwork_names : list string)
    (files : pyobj (list string)) (df : option (pyobj DataFrame)) : result t :=
  if bool_decide (grn_name = None) && (0 <? length subnetwork_names)%nat
  then Raise (ValueError "Cannot find subnetworks unless 'grn_name' is specified.")
  else
    files ← match grn_name with
            | Some g =>
                subnetwork_names ←
                  (if (length subnetwork_names =? 0)%nat
                   then list_subnetworks w g
                   else Ok subnetwork_names);
                paths ← map_result
                          (fun s => root ← os_environ_getitem w "GRN_PATH";
                                    Ok (os_path_join root [g; "networks"; s]))
                          subnetwork_names;
                Ok (PyObj fresh (val files ++ paths)%list)
            | None => Ok files
            end;
    if (length (val files) =? 0)%nat && bool_decide (df = None)
    then Raise (ValueError "Please provide at least one of 'grn_name' or 'files' of 'df'.")
    else
      _ ← match df with
          | Some d =>
              eqs ← Index_eq (take 3 (columns (val d))) ["regulator"; "target"; "weight"];
              _ ← py_assert (py_all eqs)
                    "Columns must have names 'regulator', 'target', 'weight'";
              fourth ← (if (length (columns (val d)) =? 3)%nat then Ok true
                        else c ← Index_getitem (columns (val d)) 3;
                             Ok (String.eqb c "cell_type"));
              py_assert fourth "If there are 4 columns, the 4th must be 'cell_type'."
          | None => Ok tt
          end;
      _ ← for_each
            (fun f => if os_path_exists w f then Ok tt
                      else Raise (FileNotFoundError ("File " +:+ f +:+ " does not exist.")))
            (val files);
      Ok {| files := files; df := df |}.

(** [self.copy()]: the constructor again, on the instance's own
    attributes. *)
Definition copy (w : World) (fresh : nat) (self : t) : result t :=
  __init__ w fresh None [] (files self) (df self).

(** [self.get_all()]: one statement over all the files, one over the
    table, and the two results concatenated. *)
Definition get_all (w : World) (self : t) : result DataFrame :=
  results_from_parquet ←
    (if (0 <? length (val (files self)))%nat
     then
       let files_formatted := map format_file (val (files self)) in
       duckdb.query w []
         (join " UNION " (map (fun file => "SELECT * FROM " +:+ file) files_formatted))
     else Ok (pd_DataFrame []));
  results_from_memory ←
    match df self with
    | Some d => duckdb.query w [("df", val d)] "SELECT * FROM df"
    | None => Ok (pd_DataFrame [])
    end;
  Ok (pd_concat results_from_parquet results_from_memory).

(** [self.save(filename)]: the new file system on success. *)
Definition save (w : World) (self : t) (filename : string) : result World :=
  if negb (endswith (lower filename) ".parquet")
  then Raise (ValueError "Filename must end with .parquet.")
  else d ← get_all w self; Ok (to_parquet w d filename).

Definition get_regulators (w : World) (self : t) (target : string) : result DataFrame :=
  results_from_parquet ←
    (if (0 <? length (val (files self)))%nat
     then
       let files_formatted := map format_file (val (files self)) in
       duckdb.query w []
         (join " UNION "
            (map (fun file => "SELECT * FROM " +:+ file +:+ " WHERE target = '" +:+ target +:+ "'")
                 files_formatted))
     else Ok (pd_DataFrame []));
  results_from_memory ←
    match df self with
    | Some d =>
        duckdb.query w [("df", val d)]
          ("SELECT * FROM df WHERE target = '" +:+ target +:+ "'")
    | None => Ok (pd_DataFrame [])
    end;
  Ok (pd_concat results_from_parquet results_from_memory).

Definition get_targets (w : World) (self : t) (regulator : string) : result DataFrame :=
  results_from_parquet ←
    (if (0 <? length (val (files self)))%nat
     then
       let files_formatted := map format_file (val (files self)) in
       duckdb.query w []
         (join " UNION "
            (map (fun file => "SELECT * FROM " +:+ file +:+ " WHERE regulator = '"
                              +:+ regulator +:+ "'")
                 files_formatted))
     else Ok (pd_DataFrame []));
  results_from_memory ←
    match df self with
    | Some d =>
        duckdb.query w [("df", val d)]
          ("SELECT * FROM df WHERE regulator = '" +:+ regulator +:+ "'")
    | None => Ok (pd_DataFrame [])
    end;
  Ok (pd_concat results_from_parquet results_from_memory).

Definition get_all_one_field (w : World) (self : t) (field : string) : result (gset cell) :=
  _ ← py_assert (bool_decide (field ∈ ["regulator"; "target"; "cell_type"]))
        " Can only get unique vals for 'regulator', 'target', or 'cell_type' ";
  results_from_parquet ←
    (if (0 <? length (val (files self)))%nat
     then
       let files_formatted := map format_file (val (files self)) in
       files_formatted ←
         filter_result
           (fun file =>
              t ← duckdb.query w [] ("SELECT * FROM " +:+ file +:+ " WHERE 1=0");
              Ok (bool_decide (field ∈ columns t)))
           files_formatted;
       if (0 <? length files_formatted)%nat
       then duckdb.query w []
              (join " UNION "
                 (map (fun file => "SELECT DISTINCT " +:+ field +:+ " FROM " +:+ file)
                      files_formatted))
       else Ok (pd_DataFrame [field])
     else Ok (pd_DataFrame [field]));
  results_from_memory ←
    match df self with
    | Some d =>
        if bool_decide (field ∈ columns (val d))
        then duckdb.query w [("df", val d)] ("SELECT DISTINCT " +:+ field +:+ " FROM df")
        else Ok (pd_DataFrame [field])
    | None => Ok (pd_DataFrame [field])
    end;
  s ← DataFrame_getitem (pd_concat results_from_parquet results_from_memory) field;
  Ok (py_set (Series_unique s)).


Definition get_num_edges (w : World) (self : t) : result Z :=
  results_from_parquet ←
    (if (0 <? length (val (files self)))%nat
     then
       let files_formatted := map format_file (val (files self)) in
       t ← duckdb.query w []
             ("SELECT COUNT(*) FROM " +:+ "( " +:+
              join " UNION " (map (fun file => "SELECT * FROM " +:+ file) files_formatted)
              +:+ " )");
       iloc_0_0 t
     else Ok (CInt 0));
  results_from_memory ←
    match df self with
    | Some d =>
        t ← duckdb.query w [("df", val d)] "SELECT COUNT(*) FROM df";
        iloc_0_0 t
    | None => Ok (CInt 0)
    end;
  int_add results_from_parquet results_from_memory.

End LightNetwork.

(** [pd.read_parquet(path)] *)
Definition pd_read_parquet (w : World) (path : string) : result DataFrame :=
  match fs w !! path with
  | Some (Parquet t) => Ok t
  | Some _ => Raise (IOException ("Cannot read " +:+ path))
  | None => Raise (FileNotFoundError path)
  end.

(** [X[label] = c]: overwrite the column when it exists, append it
    otherwise. *)
Definition DataFrame_setitem (X : DataFrame) (label : string) (c : cell) : DataFrame :=
  match index_of label (columns X) with
  | Some i => {| columns := columns X; rows := map (fun r => <[i := c]> r) (rows X) |}
  | None => {| columns := (columns X ++ [label])%list;
               rows := map (fun r => (r ++ [c])%list) (rows X) |}
  end.

(** [load_grn_by_subnetwork(grn_name, subnetwork_name, **kwargs)].  The
    function declares the two positional parameters only, so any keyword
    is refused before the body runs.  The results of [set_axis] and
    [astype] are dropped by the source, which leaves the table as read
    (plus the synthesised weight). *)
Definition load_grn_by_subnetwork (w : World) (grn_name subnetwork_name : string)
    (kwargs : list string) : result DataFrame :=
  match kwargs with
  | k :: _ =>
      Raise (TypeError
        ("load_grn_by_subnetwork() got an unexpected keyword argument '" +:+ k +:+ "'"))
  | [] =>
      root ← get_grn_location w;
      let grn_location := os_path_join root [grn_name; "networks"; subnetwork_name] in
      if negb (os_path_exists w grn_location)
      then Raise (FileNotFoundError not_found_help)
      else
        X ← pd_read_parquet w grn_location;
        Ok (if (length (columns X) =? 2)%nat
            then DataFrame_setitem X "weight" (CInt (-1))
            else X)
  end.

(** [grn_df[:, label]]: [DataFrame.__getitem__] with the tuple
    [(slice(None), label)].  A DataFrame takes column labels (or lists and
    masks of them) as keys; pandas rejects this tuple whatever the table
    holds, with InvalidIndexError (a TypeError in old versions).
    Row-and-column selection is spelled [.loc[:, label]]. *)
Definition DataFrame_getitem_slice_label (d : DataFrame) (label : string)
  : result (list cell) :=
  Raise (InvalidIndexError ("(slice(None, None, None), '" +:+ label +:+ "')")).

(** [validate_grn(grn_name, subnetwork_name, grn_df)].  [grn_df] is a
    pandas DataFrame or [None]; the [type(grn_df) == pd.DataFrame]
    assertion (the first [py_assert] below) is therefore true whenever it
    is reached. *)
Definition validate_grn (w : World) (grn_name subnetwork_name : string)
    (grn_df : option DataFrame) : result bool :=
  grn_df ← match grn_df with
           | None => load_grn_by_subnetwork w grn_name subnetwork_name ["do_validate"]
           | Some d => Ok d
           end;
  regulators ← DataFrame_getitem_slice_label grn_df "regulator";
  targets ← DataFrame_getitem_slice_label grn_df "target";
  if (length (Series_unique targets) <? length (Series_unique regulators))%nat
  then Raise (ValueError
         (join "" [grn_name; " "; subnetwork_name; " has more regulators than targets!"; nl]))
  else
    _ ← py_assert true "";
    eqs ← map_result
            (fun i => a ← Index_getitem (columns grn_df) i;
                      b ← Index_getitem EXPECTED_GRN_COLNAMES i;
                      Ok (String.eqb a b))
            [0; 1; 2]%nat;
    _ ← py_assert (py_all eqs) "";
    Ok true.

(** ** The constructor, step by step

    The steps of [__init__] under names of their own, for the statements
    about construction ([init_steps] shows the constructor is their
    sequence). *)

(** Lines 35 to 40: the list of files the instance will hold, or the
    exception raised while working it out. *)
Definition resolve_files (w : World) (fresh : nat)
    (grn_name : option string) (subnetwork_names : list string)
    (files : pyobj (list string)) : result (pyobj (list string)) :=
  if bool_decide (grn_name = None) && (0 <? length subnetwork_names)%nat
  then Raise (ValueError "Cannot find subnetworks unless 'grn_name' is specified.")
  else
    match grn_name with
    | Some g =>
        subnetwork_names ←
          (if (length subnetwork_names =? 0)%nat
           then list_subnetworks w g
           else Ok subnetwork_names);
        paths ← map_result
                  (fun s => root ← os_environ_getitem w "GRN_PATH";
                            Ok (os_path_join root [g; "networks"; s]))
                  subnetwork_names;
        Ok (PyObj fresh (val files ++ paths)%list)
    | None => Ok files
    end.

(** Lines 43 to 45: the check of the in-memory table. *)
Definition check_df (df : option (pyobj DataFrame)) : result unit :=
  match df with
  | Some d =>
      eqs ← Index_eq (take 3 (columns (val d))) ["regulator"; "target"; "weight"];
      _ ← py_assert (py_all eqs)
            "Columns must have names 'regulator', 'target', 'weight'";
      fourth ← (if (length (columns (val d)) =? 3)%nat then Ok true
                else c ← Index_getitem (columns (val d)) 3;
                     Ok (String.eqb c "cell_type"));
      py_assert fourth "If there are 4 columns, the 4th must be 'cell_type'."
  | None => Ok tt
  end.

(** Lines 48 to 50: the existence check. *)
Definition check_files (w : World) (files : list string) : result unit :=
  for_each
    (fun f => if os_path_exists w f then Ok tt
              else Raise (FileNotFoundError ("File " +:+ f +:+ " does not exist.")))
    files.

(** ** The column contract

    As the specification words it: the labels start with regulator,
    target, weight, and a fourth label, if any, is cell_type. *)
Definition schema_ok (cols : list string) : bool :=
  bool_decide (take 3 cols = ["regulator"; "target"; "weight"])
  && ((length cols =? 3)%nat || bool_decide (cols !! 3%nat = Some "cell_type")).

(** ** Vocabulary of the statements about queries *)

(** No single quote in [s]: the condition under which [s], interpolated
    between quotes, is read back as one string literal. *)
Fixpoint quote_free (s : string) : bool :=
  match s with
  | EmptyString => true
  | String c s' => negb (duckdb.is_quote c) && quote_free s'
  end.

(** A file name the statements about files are about: free of quotes,
    not special, and with the suffix .parquet, so that the engine reads it
    as the path of one parquet file. *)
Definition plain_name (f : string) : bool :=
  quote_free f && duckdb.parquet_suffix f && negb (duckdb.special_name f).

(** What may follow a closing quote without reopening the literal. *)
Definition no_leading_quote (s : string) : bool :=
  match s with
  | EmptyString => true
  | String c _ => negb (duckdb.is_quote c)
  end.

(** A non-empty text that does not start with a quote. *)
Definition starts_plain (s : string) : bool :=
  match s with
  | EmptyString => false
  | String c _ => negb (duckdb.is_quote c)
  end.

(** [s] lexes, between tokens, to [toks], whatever follows it. *)
Definition lexes_as (s : string) (toks : list duckdb.token) : Prop :=
  ∀ rest, no_leading_quote rest = true →
    duckdb.lex_from duckdb.LDefault (s +:+ rest)
    = app toks <$> duckdb.lex_from duckdb.LDefault rest.

(** Token runs put together with the keyword UNION between them. *)
Definition join_tokens (segs : list (list duckdb.token)) : list duckdb.token :=
  match segs with
  | [] => []
  | seg :: segs' => seg ++ concat (map (fun s => duckdb.TWord "UNION" :: s) segs')
  end.

Definition no_union (seg : list duckdb.token) : Prop :=
  Forall (fun t => duckdb.is_kw t "UNION" = false) seg.


Definition select_distinct_tokens (field f : string) : list duckdb.token :=
  [duckdb.TWord "SELECT"; duckdb.TWord "DISTINCT"; duckdb.TWord field;
   duckdb.TWord "FROM"; duckdb.TStr f].

Definition select_where_tokens (col v f : string) : list duckdb.token :=
  [duckdb.TWord "SELECT"; duckdb.TStar; duckdb.TWord "FROM"; duckdb.TStr f;
   duckdb.TWord "WHERE"; duckdb.TWord col; duckdb.TEq; duckdb.TStr v].

(** The files of a network and the tables they store, side by side. *)
Definition file_tables (w : World) (files : list string) (ts : list DataFrame) : Prop :=
  Forall2 (fun f t => fs w !! f = Some (Parquet t)) files ts.


(** The tables a network is made of. *)
Definition constituent (self : LightNetwork.t) (ts : list DataFrame) (t : DataFrame)
  : Prop :=
  t ∈ ts ∨ ∃ d, LightNetwork.df self = Some d ∧ t = val d.

(** The same as a list: the tables of the files, then the in-memory
    table. *)
Definition memory_tables (self : LightNetwork.t) : list DataFrame :=
  match LightNetwork.df self with
  | Some d => [val d]
  | None => []
  end.

Definition constituents (self : LightNetwork.t) (ts : list DataFrame) : list DataFrame :=
  (ts ++ memory_tables self)%list.

(** *** Column types

    A parquet file and a DataFrame give each column a type; a [DataFrame]
    of this embedding holds typed cells but records no column type.  The
    engine converts values when a [UNION] or a comparison brings two
    types together, and pandas does when it concatenates; none of that is
    modelled.  The statements about query results are therefore about
    tables whose columns show their type: a column of kind [k] holds
    values of kind [k] and NULLs only, and at least one value (an empty
    or all-NULL column could be stored under any type). *)
Inductive kind : Type := KText | KInt | KFloat.

Definition has_kind (k : kind) (c : cell) : bool :=
  match k, c with
  | KText, CStr _ | KInt, CInt _ | KFloat, CFloat _ => true
  | _, _ => false
  end.

Definition is_null (c : cell) : bool :=
  match c with
  | CNull => true
  | _ => false
  end.

Definition column_of_kind (k : kind) (i : nat) (l : list row) : bool :=
  forallb (fun r => has_kind k (nth i r CNull) || is_null (nth i r CNull)) l
  && existsb (fun r => has_kind k (nth i r CNull)) l.

(** A table whose columns are, in order, of the kinds [ks]. *)
Definition typed (ks : list kind) (t : DataFrame) : bool :=
  (length ks =? length (columns t))%nat
  && forallb (fun ik => column_of_kind (snd ik) (fst ik) (rows t))
       (zip (seq 0 (length ks)) ks).

(** The kind of the column labelled [name]. *)
Definition kind_of_column (cols : list string) (ks : list kind) (name : string)
  : option kind :=
  i ← index_of name cols; ks !! i.

(** A table fit for a query on [field]: its labels are distinct, case
    aside (identifiers are matched without regard to case); and if it has
    the column, the column is of kind [k]. *)
Definition field_of_kind (field : string) (k : kind) (t : DataFrame) : bool :=
  bool_decide (NoDup (map lower (columns t)))
  && match index_of field (columns t) with
     | Some i => column_of_kind k i (rows t)
     | None => true
     end.

(** How many times a row occurs. *)
Definition occurrences (r : row) (l : list row) : nat :=
  length (filter (fun x => x = r) l).

(** A table with the labels [cols] and rows of that width. *)
Definition wf_frame (cols : list string) (t : DataFrame) : Prop :=
  columns t = cols ∧ Forall (fun r => length r = length cols) (rows t).

Definition wf_memory (cols : list string) (self : LightNetwork.t) : Prop :=
  match LightNetwork.df self with
  | Some d => wf_frame cols (val d)
  | None => True
  end.

(** A network whose constituents all carry the labels [cols], distinct
    case aside, and columns of the kinds [ks], and whose files are parquet
    files with plain names. *)
Definition uniform (w : World) (self : LightNetwork.t) (ts : list DataFrame)
    (cols : list string) (ks : list kind) : Prop :=
  Forall (fun f => plain_name f = true) (val (LightNetwork.files self))
  ∧ file_tables w (val (LightNetwork.files self)) ts
  ∧ NoDup (map lower cols)
  ∧ Forall (fun t => wf_frame cols t ∧ typed ks t = true) (constituents self ts).

(** The rows the files contribute to [get_all]: those of the single
    file, or the distinct rows of all the files when there are several. *)
Definition file_rows (ts : list DataFrame) : list row :=
  match ts with
  | [] => []
  | [t] => rows t
  | _ => dedup (concat (map rows ts))
  end.


(** The values a table holds under a label. *)
Definition column_values (field : string) (t : DataFrame) : list cell :=
  map (cell_at (columns t) field) (rows t).

(** What SELECT DISTINCT field FROM t returns. *)
Definition distinct_frame (field : string) (t : DataFrame) : DataFrame :=
  {| columns := [field];
     rows := dedup (map (fun r => [cell_at (columns t) field r]) (rows t)) |}.

(** The files that have the column, and their tables. *)
Definition files_with (field : string) (files : list string) (ts : list DataFrame)
  : list string :=
  map fst (filter (fun p => field ∈ columns (snd p)) (zip files ts)).

Definition tables_with (field : string) (ts : list DataFrame) : list DataFrame :=
  filter (fun t => field ∈ columns t) ts.

(** What SELECT * FROM t WHERE col = 'v' returns. *)
Definition where_frame (col v : string) (t : DataFrame) : DataFrame :=
  {| columns := columns t;
     rows := filter (fun r => cell_at (columns t) col r = CStr v) (rows t) |}.

(** The body [get_regulators] (with target) and [get_targets] (with
    regulator) have in common; [get_regulators_get_where] and
    [get_targets_get_where] show they are its two instances. *)
Definition get_where (col : string) (w : World) (self : LightNetwork.t) (v : string)
  : result DataFrame :=
  results_from_parquet ←
    (if (0 <? length (val (LightNetwork.files self)))%nat
     then
       duckdb.query w []
         (join " UNION "
            (map (fun file => "SELECT * FROM " +:+ file +:+ " WHERE " +:+ col +:+ " = '"
                              +:+ v +:+ "'")
                 (map LightNetwork.format_file (val (LightNetwork.files self)))))
     else Ok (pd_DataFrame []));
  results_from_memory ←
    match LightNetwork.df self with
    | Some d =>
        duckdb.query w [("df", val d)]
          ("SELECT * FROM df WHERE " +:+ col +:+ " = '" +:+ v +:+ "'")
    | None => Ok (pd_DataFrame [])
    end;
  Ok (pd_concat results_from_parquet results_from_memory).

(** ** Concrete worlds and tables for the statements evaluated below *)
Module Ex.

Definition cols3 : list string := ["regulator"; "target"; "weight"].

Definition half : Qc := Q2Qc (1 # 2).

Definition e1 : row := [CStr "TF1"; CStr "G1"; CFloat half].
Definition e2 : row := [CStr "TF2"; CStr "G1"; CFloat (Q2Qc (9 # 10))].
Definition e3 : row := [CStr "TF3"; CStr "G2"; CFloat (Q2Qc 1)].

Definition tissue_a : DataFrame := {| columns := cols3; rows := [e1] |}.
Definition tissue_b : DataFrame := {| columns := cols3; rows := [e2] |}.
Definition in_memory : pyobj DataFrame := PyObj 7 {| columns := cols3; rows := [e3] |}.

(** An in-memory table that repeats the edge of [tissue_a]. *)
Definition in_memory_again : pyobj DataFrame :=
  PyObj 8 {| columns := cols3; rows := [e1] |}.

(** An edge whose gene names carry a prime. *)
Definition primed : row := [CStr "TF'"; CStr "G'"; CFloat half].
Definition in_memory_primed : pyobj DataFrame :=
  PyObj 9 {| columns := cols3; rows := [primed] |}.

(** A table whose columns are outside the contract. *)
Definition off_contract : DataFrame :=
  {| columns := ["a"; "b"]; rows := [[CStr "x"; CStr "y"]] |}.

(** The collection of the specification's end-to-end scenario, two more
    files next to it. *)
Definition world : World :=
  {| environ := {[ "GRN_PATH" := "/data" ]};
     fs := list_to_map
             [("/data/testsrc/networks", Dir ["a.parquet"; "b.parquet"; ".hidden"]);
              ("/data/testsrc/networks/a.parquet", Parquet tissue_a);
              ("/data/testsrc/networks/b.parquet", Parquet tissue_b);
              ("/data/a_again.parquet", Parquet tissue_a);
              ("/data/off.parquet", Parquet off_contract)] |}.

(** The same collection after [/data/a_again.parquet] was removed. *)
Definition world_later : World :=
  {| environ := environ world; fs := delete "/data/a_again.parquet" (fs world) |}.

Definition no_files : pyobj (list string) := PyObj 0 [].

(** The network of the end-to-end scenario. *)
Definition scenario : LightNetwork.t :=
  {| LightNetwork.files := PyObj 1 ["/data/testsrc/networks/a.parquet"; "/data/testsrc/networks/b.parquet"];
     LightNetwork.df := Some in_memory |}.


(** One file and an in-memory table that store the same edge. *)
Definition file_and_memory : LightNetwork.t :=
  {| LightNetwork.files := PyObj 3 ["/data/testsrc/networks/a.parquet"];
     LightNetwork.df := Some in_memory_again |}.

(** The table with the primed names alone. *)
Definition primed_network : LightNetwork.t :=
  {| LightNetwork.files := no_files; LightNetwork.df := Some in_memory_primed |}.

End Ex.

(** ** Locating the collection *)

(** [set_grn_location(path)]: the process with the variable set, and the
    lines printed on the way.  The catalogue file must be there; a missing
    example network only prints a warning. *)
Definition set_grn_location (w : World) (path : string) : result (World * list string) :=
  if negb (os_path_isfile w (os_path_join path ["published_networks.csv"]))
  then Raise (FileNotFoundError
         "published_networks.csv is missing. Try load_networks.debug_grn_location() for more help.")
  else
    let printed :=
      if negb (os_path_isfile w
                 (os_path_join path ["cellnet_human_Hg1332"; "networks"; "bcell.parquet"]))
      then ["Checked for an example network and didn't find it; this is a bad sign. Try debug_grn_location() for more help."]
      else [] in
    Ok ({| environ := <["GRN_PATH" := path]> (environ w); fs := fs w |}, printed).

(** An entry of a directory that [list_subnetworks] keeps. *)
Definition visible (s : string) : bool := negb (startswith s ".").

(** ** More worlds and networks *)

Module Ex2.

(** The collection seen by a process that has not set [GRN_PATH] yet;
    the catalogue file is in place. *)
Definition fresh_process : World :=
  {| environ := ∅;
     fs := <["/data/published_networks.csv" := OtherFile]> (fs Ex.world) |}.

(** That process after [set_grn_location("/data")]. *)
Definition located : World :=
  {| environ := <["GRN_PATH" := "/data"]> ∅; fs := fs fresh_process |}.




(** The collection after tissue [a] was overwritten with a table outside
    the contract. *)
Definition rewritten : World :=
  {| environ := environ Ex.world;
     fs := <["/data/testsrc/networks/a.parquet" := Parquet Ex.off_contract]> (fs Ex.world) |}.

(** The scenario with its files in another order, one of them twice. *)
Definition reordered : LightNetwork.t :=
  {| LightNetwork.files := PyObj 5 ["/data/testsrc/networks/b.parquet"; "/data/testsrc/networks/a.parquet";
                                    "/data/testsrc/networks/b.parquet"];
     LightNetwork.df := Some Ex.in_memory |}.


End Ex2.

(** * Properties *)

(** ** Strings *)

Section Strings.

Lemma append_String c s t : String c s +:+ t = String c (s +:+ t).
Proof. reflexivity. Qed.

Lemma append_nil_r s : s +:+ "" = s.
Proof. induction s as [|c s IH]; [done|]. by rewrite append_String, IH. Qed.

Lemma append_assoc s1 s2 s3 : (s1 +:+ s2) +:+ s3 = s1 +:+ (s2 +:+ s3).
Proof. induction s1 as [|c s1 IH]; [done|]. by rewrite !append_String, IH. Qed.

Lemma starts_plain_app s t : starts_plain s = true → starts_plain (s +:+ t) = true.
Proof. by destruct s. Qed.

Lemma starts_plain_no_leading_quote s : starts_plain s = true → no_leading_quote s = true.
Proof. by destruct s. Qed.

End Strings.

(** ** The lexer on the statements the module writes *)

Section Lexing.
Import duckdb.

Lemma lex_run_app s1 s2 st :
  lex_run st (s1 +:+ s2) =
  '(st1, t1) ← lex_run st s1; '(st2, t2) ← lex_run st1 s2; Ok (st2, (t1 ++ t2)%list).
Proof.
  revert st. induction s1 as [|c s1 IH]; intros st.
  - change ("" +:+ s2) with s2. cbn. by destruct (lex_run st s2) as [[]|].
  - rewrite append_String. cbn [lex_run].
    destruct (lex_step st c) as [[st1 t1]|e]; [|done]. cbn. rewrite IH.
    destruct (lex_run st1 s1) as [[st2 t2]|e]; [|done]. cbn.
    destruct (lex_run st2 s2) as [[st3 t3]|e]; [|done]. cbn.
    by rewrite app_assoc.
Qed.

(** Running a prefix whose outcome is known. *)
Lemma lex_from_app s1 s2 st st1 t1 :
  lex_run st s1 = Ok (st1, t1) →
  lex_from st (s1 +:+ s2) = app t1 <$> lex_from st1 s2.
Proof.
  intros H. unfold lex_from. rewrite lex_run_app, H. cbn.
  destruct (lex_run st1 s2) as [[st2 t2]|e]; [|done]. cbn.
  destruct (lex_finish st2); [|done]. cbn. by rewrite app_assoc.
Qed.

Lemma lex_run_literal s acc :
  quote_free s = true → lex_run (LStr acc) s = Ok (LStr (acc +:+ s), []).
Proof.
  revert acc. induction s as [|c s IH]; intros acc.
  - intros _. by rewrite append_nil_r.
  - intros [Hc Hs]%andb_true_iff. apply negb_true_iff in Hc. cbn [lex_run lex_step].
    rewrite Hc. cbn. rewrite IH by done. cbn. unfold snoc_char. by rewrite append_assoc.
Qed.

Lemma lex_from_close acc rest :
  no_leading_quote rest = true →
  lex_from (LStrQuote acc) rest = cons (TStr acc) <$> lex_from LDefault rest.
Proof.
  destruct rest as [|c rest]; [done|]. cbn. intros Hc%negb_true_iff.
  unfold lex_from. cbn [lex_run lex_step]. rewrite Hc.
  destruct (lex_start c) as [[st1 t1]|e]; [|done]. cbn.
  destruct (lex_run st1 rest) as [[st2 t2]|e]; [|done]. cbn.
  by destruct (lex_finish st2).
Qed.

Lemma lexes_as_lex s toks : lexes_as s toks → lex s = Ok toks.
Proof.
  intros H. specialize (H "" eq_refl). rewrite append_nil_r in H.
  unfold lex. rewrite H. cbn. by rewrite app_nil_r.
Qed.

Lemma fmap_fmap_result {A B C} (f : A → B) (g : B → C) (m : result A) :
  g <$> (f <$> m) = (g ∘ f) <$> m.
Proof. by destruct m. Qed.

Lemma lexes_as_app s1 s2 t1 t2 :
  lexes_as s1 t1 → lexes_as s2 t2 → starts_plain s2 = true →
  lexes_as (s1 +:+ s2) (t1 ++ t2).
Proof.
  intros H1 H2 Hq rest Hrest. rewrite append_assoc, H1, H2; [|done|].
  - rewrite fmap_fmap_result. destruct (lex_from LDefault rest); cbn; [|done].
    by rewrite app_assoc.
  - by apply starts_plain_no_leading_quote, starts_plain_app.
Qed.

(** A statement piece that runs from between tokens into a closed string
    literal. *)
Lemma lexes_as_closing s toks lit :
  lex_run LDefault s = Ok (LStrQuote lit, toks) →
  lexes_as s (toks ++ [TStr lit]).
Proof.
  intros H rest Hrest. rewrite (lex_from_app _ _ _ _ _ H), lex_from_close by done.
  rewrite fmap_fmap_result. destruct (lex_from LDefault rest); cbn; [|done].
  by rewrite <- app_assoc.
Qed.

Lemma lexes_as_union : lexes_as " UNION " [TWord "UNION"].
Proof.
  intros rest _. rewrite (lex_from_app _ _ _ LDefault [TWord "UNION"]); done.
Qed.

Lemma starts_plain_join {A} (seg : A → string) (x : A) (l : list A) :
  starts_plain (seg x) = true → starts_plain (join " UNION " (map seg (x :: l))) = true.
Proof. intros H. destruct l; [done|]. by apply starts_plain_app. Qed.

Lemma lexes_as_join {A} (seg : A → string) (toks : A → list token) (l : list A) :
  (∀ x, x ∈ l → lexes_as (seg x) (toks x) ∧ starts_plain (seg x) = true) →
  l ≠ [] →
  lexes_as (join " UNION " (map seg l)) (join_tokens (map toks l)).
Proof.
  induction l as [|x l IH]; [done|]. intros Hl _.
  destruct l as [|y l].
  - cbn. rewrite app_nil_r. apply Hl. by left.
  - change (join " UNION " (map seg (x :: y :: l)))
      with (seg x +:+ " UNION " +:+ join " UNION " (map seg (y :: l))).
    change (join_tokens (map toks (x :: y :: l)))
      with (toks x ++ [TWord "UNION"] ++ join_tokens (map toks (y :: l)))%list.
    apply lexes_as_app; [apply Hl; by left | | done].
    apply lexes_as_app; [apply lexes_as_union | | ].
    + apply IH; [|done]. intros z Hz. apply Hl. by right.
    + apply starts_plain_join, Hl. right. by left.
Qed.

Lemma lex_run_app_ok st s1 s2 st1 t1 :
  lex_run st s1 = Ok (st1, t1) →
  lex_run st (s1 +:+ s2) = '(st2, t2) ← lex_run st1 s2; Ok (st2, (t1 ++ t2)%list).
Proof. intros H. by rewrite lex_run_app, H. Qed.

(** The shapes of statement piece the module writes per file. *)
Lemma lex_run_select_all f :
  quote_free f = true →
  lex_run LDefault ("SELECT * FROM " +:+ LightNetwork.format_file f)
  = Ok (LStrQuote f, [TWord "SELECT"; TStar; TWord "FROM"]).
Proof.
  intros Hf. unfold LightNetwork.format_file.
  change ("SELECT * FROM " +:+ "'" +:+ f +:+ "'") with ("SELECT * FROM '" +:+ f +:+ "'").
  rewrite (lex_run_app_ok _ "SELECT * FROM '" _ (LStr "")
             [TWord "SELECT"; TStar; TWord "FROM"]) by reflexivity.
  by rewrite (lex_run_app_ok _ f _ _ _ (lex_run_literal f "" Hf)).
Qed.

Lemma lex_run_select_where col f v :
  col = "target" ∨ col = "regulator" →
  quote_free f = true → quote_free v = true →
  lex_run LDefault ("SELECT * FROM " +:+ LightNetwork.format_file f
                    +:+ " WHERE " +:+ col +:+ " = '" +:+ v +:+ "'")
  = Ok (LStrQuote v, [TWord "SELECT"; TStar; TWord "FROM"; TStr f;
                      TWord "WHERE"; TWord col; TEq]).
Proof.
  intros Hcol Hf Hv. unfold LightNetwork.format_file.
  change ("SELECT * FROM " +:+ ("'" +:+ f +:+ "'") +:+ ?r)
    with ("SELECT * FROM '" +:+ (f +:+ "'") +:+ r).
  rewrite (lex_run_app_ok _ "SELECT * FROM '" _ (LStr "")
             [TWord "SELECT"; TStar; TWord "FROM"]) by reflexivity.
  rewrite append_assoc.
  rewrite (lex_run_app_ok _ f _ _ _ (lex_run_literal f "" Hf)).
  change ("'" +:+ " WHERE " +:+ col +:+ " = '" +:+ v +:+ "'")
    with ("' WHERE " +:+ col +:+ " = '" +:+ v +:+ "'").
  rewrite (lex_run_app_ok _ "' WHERE " _ LDefault [TStr f; TWord "WHERE"]) by reflexivity.
  rewrite (lex_run_app_ok _ col _ (LWord col) []) by (by destruct Hcol as [->| ->]).
  rewrite (lex_run_app_ok _ " = '" _ (LStr "") [TWord col; TEq]) by reflexivity.
  by rewrite (lex_run_app_ok _ v _ _ _ (lex_run_literal v "" Hv)).
Qed.

Lemma lex_run_select_distinct field f :
  field ∈ ["regulator"; "target"; "cell_type"] →
  quote_free f = true →
  lex_run LDefault ("SELECT DISTINCT " +:+ field +:+ " FROM " +:+ LightNetwork.format_file f)
  = Ok (LStrQuote f, [TWord "SELECT"; TWord "DISTINCT"; TWord field; TWord "FROM"]).
Proof.
  intros Hfield Hf. unfold LightNetwork.format_file.
  rewrite (lex_run_app_ok _ "SELECT DISTINCT " _ LDefault
             [TWord "SELECT"; TWord "DISTINCT"]) by reflexivity.
  rewrite (lex_run_app_ok _ field _ (LWord field) []).
  2:{ repeat (apply elem_of_cons in Hfield as [->|Hfield]; [reflexivity|]).
      by apply elem_of_nil in Hfield. }
  change (" FROM " +:+ "'" +:+ f +:+ "'") with (" FROM '" +:+ f +:+ "'").
  rewrite (lex_run_app_ok _ " FROM '" _ (LStr "") [TWord field; TWord "FROM"])
    by reflexivity.
  by rewrite (lex_run_app_ok _ f _ _ _ (lex_run_literal f "" Hf)).
Qed.

(** The probe for the columns of a file. *)
Lemma lex_probe f :
  quote_free f = true →
  lex ("SELECT * FROM " +:+ LightNetwork.format_file f +:+ " WHERE 1=0")
  = Ok [TWord "SELECT"; TStar; TWord "FROM"; TStr f;
        TWord "WHERE"; TWord "1"; TEq; TWord "0"].
Proof.
  intros Hf. unfold lex.
  rewrite <- append_assoc.
  by rewrite (lex_from_app _ _ _ _ _ (lex_run_select_all f Hf)).
Qed.

(** A statement wrapped for counting lexes as the statement does, inside
    the tokens of the wrapping. *)
Lemma lex_count_wrapper q :
  lex ("SELECT COUNT(*) FROM " +:+ "( " +:+ q +:+ " )")
  = (fun ts => [TWord "SELECT"; TWord "COUNT"; TLParen; TStar; TRParen; TWord "FROM";
                TLParen] ++ ts ++ [TRParen])%list <$> lex q.
Proof.
  unfold lex.
  change ("SELECT COUNT(*) FROM " +:+ "( " +:+ q +:+ " )")
    with ("SELECT COUNT(*) FROM ( " +:+ q +:+ " )").
  rewrite (lex_from_app _ _ _ LDefault
             [TWord "SELECT"; TWord "COUNT"; TLParen; TStar; TRParen; TWord "FROM";
              TLParen]) by reflexivity.
  unfold lex_from.
  destruct (lex_run LDefault q) as [[st ts]|e] eqn:Hq; [|by rewrite lex_run_app, Hq].
  rewrite (lex_run_app_ok _ _ _ _ _ Hq).
  destruct st as [|acc|acc|acc].
  - change (lex_run LDefault " )") with (Ok (LDefault, [TRParen]) : result _).
    cbn. by rewrite !app_nil_r.
  - change (lex_run (LWord acc) " )")
      with (Ok (LDefault, [TWord acc; TRParen]) : result _).
    cbn. by rewrite app_nil_r, <- app_assoc.
  - change (lex_run (LStr acc) " )")
      with (Ok (LStr (snoc_char (snoc_char acc " ") ")"), []) : result (_ * list token)).
    done.
  - change (lex_run (LStrQuote acc) " )")
      with (Ok (LDefault, [TStr acc; TRParen]) : result _).
    cbn. by rewrite app_nil_r, <- app_assoc.
Qed.

End Lexing.

(** ** The parser on their tokens *)

Section Parsing.
Import duckdb.

Lemma split_union_cons_plain t toks :
  is_kw t "UNION" = false →
  split_union (t :: toks) =
  match split_union toks with
  | seg :: segs => (t :: seg) :: segs
  | [] => [[t]]
  end.
Proof. intros H. cbn [split_union]. by rewrite H. Qed.

Lemma split_union_app seg rest :
  no_union seg →
  split_union (seg ++ TWord "UNION" :: rest) = seg :: split_union rest.
Proof.
  induction 1 as [|t seg Ht _ IH]; [done|].
  rewrite <- app_comm_cons, split_union_cons_plain, IH; done.
Qed.

Lemma split_union_plain seg : no_union seg → split_union seg = [seg].
Proof.
  induction 1 as [|t seg Ht _ IH]; [done|].
  by rewrite split_union_cons_plain, IH.
Qed.

Lemma split_union_join segs :
  segs ≠ [] → Forall no_union segs → split_union (join_tokens segs) = segs.
Proof.
  destruct segs as [|seg segs]; [done|]. intros _ Hall. cbn [join_tokens].
  revert seg Hall. induction segs as [|seg' segs IH]; intros seg Hall.
  - cbn. rewrite app_nil_r. apply split_union_plain. by inversion Hall.
  - cbn [map concat]. rewrite <- app_comm_cons.
    inversion Hall as [|? ? Hseg Hrest]; subst.
    rewrite split_union_app by done. f_equal. by apply IH.
Qed.

Lemma parse_query_join {A} (toks : A → list token) (sel : A → select) (l : list A) :
  l ≠ [] →
  (∀ x, x ∈ l → parse_select (toks x) = Some (sel x) ∧ no_union (toks x)) →
  parse_query (join_tokens (map toks l)) = Some (map sel l).
Proof.
  intros Hne Hl. unfold parse_query. rewrite split_union_join.
  - apply mapM_Some. apply Forall2_fmap, Forall_Forall2_diag, Forall_forall.
    intros x Hx. by apply Hl.
  - by destruct l.
  - apply Forall_fmap, Forall_forall. intros x Hx. by apply Hl.
Qed.

(** A statement that does not open with the tokens of a count is a
    query. *)
Lemma parse_statement_query t1 t2 t3 toks :
  t3 ≠ TLParen →
  parse_statement (t1 :: t2 :: t3 :: toks) = SQuery <$> parse_query (t1 :: t2 :: t3 :: toks).
Proof. intros H. by destruct t3. Qed.

Lemma parse_statement_count toks :
  parse_statement ([TWord "SELECT"; TWord "COUNT"; TLParen; TStar; TRParen; TWord "FROM";
                    TLParen] ++ toks ++ [TRParen])%list
  = SCountQuery <$> parse_query toks.
Proof.
  destruct toks as [|t toks]; [done|].
  change (parse_statement _)
    with (match rev ((t :: toks) ++ [TRParen]) with
          | TRParen :: inner => SCountQuery <$> parse_query (rev inner)
          | _ => None
          end).
  by rewrite rev_unit, rev_involutive.
Qed.

End Parsing.

(** ** Evaluation: the statement over all the files *)

Section Evaluation.
Import duckdb.

Lemma bind_Ok {A B} (a : A) (k : A → result B) : Ok a ≫= k = k a.
Proof. reflexivity. Qed.

Lemma map_result_Forall2 {A B} (f : A → result B) l k :
  Forall2 (fun x y => f x = Ok y) l k → map_result f l = Ok k.
Proof. induction 1 as [|x y l k Hxy _ IH]; [done|]. cbn. by rewrite Hxy, IH. Qed.


Lemma parse_statement_not_count toks :
  toks !! 2%nat ≠ Some TLParen →
  parse_statement toks = SQuery <$> parse_query toks.
Proof.
  destruct toks as [|a [|b [|c r]]]; try done. intros H. by destruct c.
Qed.

Lemma plain_name_quote_free f : plain_name f = true → quote_free f = true.
Proof. unfold plain_name. by intros [[? _]%andb_prop _]%andb_prop. Qed.

Lemma plain_names_quote_free files :
  Forall (fun f => plain_name f = true) files →
  Forall (fun f => quote_free f = true) files.
Proof. intros H. eapply Forall_impl; [exact H|]. apply plain_name_quote_free. Qed.

(** A plain name is looked up in the file system as it is. *)
Lemma scan_plain w scope f :
  plain_name f = true →
  scan w scope (SrcFile f)
  = match fs w !! f with
    | Some (Parquet t) => Ok t
    | Some OtherFile => Raise (InvalidInputException "No magic bytes found at end of file")
    | Some (Dir _) => Raise (OutsideModel "directory")
    | None => Raise (IOException ("No files found that match the pattern " +:+ f))
    end.
Proof.
  unfold plain_name. intros [[_ Hp]%andb_prop Hg]%andb_prop.
  cbn [scan]. rewrite Hp. by destruct (special_name f).
Qed.

Lemma scan_file w scope f t :
  plain_name f = true → fs w !! f = Some (Parquet t) →
  scan w scope (SrcFile f) = Ok t.
Proof. intros Hp Hf. by rewrite scan_plain, Hf. Qed.





Lemma query_memory_all w d :
  query w [("df", d)] "SELECT * FROM df" = Ok d.
Proof. by destruct d. Qed.

Lemma query_memory_count w d :
  query w [("df", d)] "SELECT COUNT(*) FROM df" = Ok (count_star d).
Proof. reflexivity. Qed.

End Evaluation.

(** ** Lists: distinct elements *)

Section Dedup.
Context {A : Type} `{EqDecision A}.

Lemma dedup_cons (x : A) l :
  dedup (x :: l) = x :: filter (fun y => y ≠ x) (dedup l).
Proof.
  cbn. f_equal. apply list_filter_iff. intros y.
  rewrite negb_True, bool_decide_spec. done.
Qed.

Lemma elem_of_dedup (x : A) l : x ∈ dedup l ↔ x ∈ l.
Proof.
  induction l as [|y l IH]; [done|].
  rewrite dedup_cons, !elem_of_cons, list_elem_of_filter, IH.
  destruct (decide (x = y)); intuition congruence.
Qed.



End Dedup.

(** ** pandas: concatenation of frames with the same labels *)

Section Pandas.

Lemma index_of_lookup cols i name :
  NoDup cols → cols !! i = Some name → index_of name cols = Some i.
Proof.
  intros Hnd. revert i. induction Hnd as [|c cols Hc Hnd IH]; intros i; [done|].
  destruct i as [|i]; cbn.
  - intros [= ->]. by rewrite String.eqb_refl.
  - intros Hi. destruct (String.eqb_spec c name) as [->|_].
    + destruct Hc. by eapply list_elem_of_lookup_2.
    + by rewrite (IH i Hi).
Qed.

Lemma reindex_id cols r :
  NoDup cols → length r = length cols → reindex cols cols r = r.
Proof.
  intros Hnd Hlen. apply list_eq. intros i. unfold reindex.
  rewrite list_lookup_fmap. destruct (cols !! i) as [name|] eqn:Hi; cbn.
  - unfold cell_at. rewrite (index_of_lookup _ _ _ Hnd Hi).
    assert (i < length r)%nat as Hlt.
    { rewrite Hlen. by eapply lookup_lt_Some. }
    destruct (lookup_lt_is_Some_2 _ _ Hlt) as [x Hx]. rewrite Hx.
    f_equal. by apply nth_lookup_Some.
  - symmetry. apply lookup_ge_None. rewrite Hlen. by apply lookup_ge_None.
Qed.

Lemma map_reindex_id cols l :
  NoDup cols → Forall (fun r => length r = length cols) l →
  map (reindex cols cols) l = l.
Proof.
  intros Hnd Hl. induction Hl as [|r l Hr _ IH]; [done|].
  cbn. by rewrite reindex_id, IH.
Qed.

Lemma elem_of_concat {A} (x : A) (ls : list (list A)) :
  x ∈ concat ls ↔ ∃ l, l ∈ ls ∧ x ∈ l.
Proof.
  induction ls as [|l ls IH]; cbn [concat].
  - split; [by intros ?%elem_of_nil | by intros (l & ?%elem_of_nil & _)].
  - rewrite elem_of_app, IH. split.
    + intros [Hx|(l' & Hl' & Hx)]; [exists l; split; [by left | done]|].
      exists l'. split; [by right | done].
    + intros (l' & [->|Hl']%elem_of_cons & Hx); [by left|]. right. by exists l'.
Qed.

Lemma filter_none {A} (P : A → Prop) `{∀ x, Decision (P x)} (l : list A) :
  (∀ x, x ∈ l → ¬ P x) → filter P l = [].
Proof.
  induction l as [|x l IH]; [done|]. intros Hl.
  rewrite filter_cons_False by (apply Hl; by left).
  apply IH. intros y Hy. apply Hl. by right.
Qed.

Lemma filter_all {A} (P : A → Prop) `{∀ x, Decision (P x)} (l : list A) :
  (∀ x, x ∈ l → P x) → filter P l = l.
Proof.
  induction l as [|x l IH]; [done|]. intros Hl.
  rewrite filter_cons_True by (apply Hl; by left).
  f_equal. apply IH. intros y Hy. apply Hl. by right.
Qed.

Lemma union_columns_same cols : union_columns cols cols = cols.
Proof.
  unfold union_columns. rewrite filter_none, app_nil_r; [done|].
  intros c Hc. rewrite negb_True, bool_decide_spec. tauto.
Qed.

Lemma union_columns_nil_l cols : union_columns [] cols = cols.
Proof.
  unfold union_columns. cbn [app]. apply filter_all.
  intros c _. rewrite negb_True, bool_decide_spec. by intros ?%elem_of_nil.
Qed.

Lemma union_columns_nil_r cols : union_columns cols [] = cols.
Proof. unfold union_columns. by rewrite filter_nil, app_nil_r. Qed.

Lemma pd_concat_uniform cols a b :
  NoDup cols → wf_frame cols a → wf_frame cols b →
  pd_concat a b = {| columns := cols; rows := rows a ++ rows b |}.
Proof.
  intros Hnd [Ha Hra] [Hb Hrb]. unfold pd_concat. rewrite Ha, Hb, union_columns_same.
  by rewrite !map_reindex_id.
Qed.

Lemma pd_concat_empty_l cols b :
  NoDup cols → wf_frame cols b → pd_concat (pd_DataFrame []) b = b.
Proof.
  intros Hnd [Hb Hrb]. unfold pd_concat. cbn [pd_DataFrame columns rows map app].
  rewrite union_columns_nil_l, Hb, map_reindex_id by done.
  rewrite <- Hb. by destruct b.
Qed.

Lemma pd_concat_empty_r cols a :
  NoDup cols → wf_frame cols a → pd_concat a (pd_DataFrame []) = a.
Proof.
  intros Hnd [Ha Hra]. unfold pd_concat. cbn [pd_DataFrame columns rows map].
  rewrite union_columns_nil_r, Ha, map_reindex_id, app_nil_r by done.
  rewrite <- Ha. by destruct a.
Qed.

Lemma length_rows_pd_concat a b :
  length (rows (pd_concat a b)) = (length (rows a) + length (rows b))%nat.
Proof. unfold pd_concat. cbn. by rewrite length_app, !length_map. Qed.

End Pandas.

(** ** Counting rows *)

Section Counting.
Import duckdb.

(** The statement [get_all] sends for a non-empty list of files opens
    with SELECT * FROM, whatever the file names are. *)
Lemma select_all_text_prefix files :
  files ≠ [] →
  ∃ x, join " UNION "
         (map (fun file => "SELECT * FROM " +:+ file) (map LightNetwork.format_file files))
       = "SELECT * FROM '" +:+ x.
Proof.
  destruct files as [|f [|g files]]; [done|..]; intros _; eexists; reflexivity.
Qed.

Lemma lex_select_prefix x ts :
  lex ("SELECT * FROM '" +:+ x) = Ok ts → ts !! 2%nat = Some (TWord "FROM").
Proof.
  unfold lex.
  rewrite (lex_from_app _ _ _ (LStr "") [TWord "SELECT"; TStar; TWord "FROM"])
    by reflexivity.
  destruct (lex_from (LStr "") x); [|done]. by intros [= <-].
Qed.

(** Counting the rows of a query that is not itself a count. *)
Lemma query_count_wrapper w scope q :
  (∀ ts, lex q = Ok ts → ts !! 2%nat ≠ Some TLParen) →
  query w scope ("SELECT COUNT(*) FROM " +:+ "( " +:+ q +:+ " )")
  = count_star <$> query w scope q.
Proof.
  intros Hq. unfold query. rewrite lex_count_wrapper.
  destruct (lex q) as [ts|e]; [|done]. cbn [fmap result_fmap mbind result_bind].
  rewrite parse_statement_count, parse_statement_not_count by auto.
  by destruct (parse_query ts).
Qed.

Lemma get_num_edges_get_all w self :
  LightNetwork.get_num_edges w self
  = (fun d => Z.of_nat (length (rows d))) <$> LightNetwork.get_all w self.
Proof.
  unfold LightNetwork.get_num_edges, LightNetwork.get_all.
  set (q := join " UNION " _).
  destruct (0 <? length (val (LightNetwork.files self)))%nat eqn:Hfiles.
  - rewrite query_count_wrapper.
    2:{ intros ts Hts.
        destruct (select_all_text_prefix (val (LightNetwork.files self))) as [x Hx].
        { intros Hnil. by rewrite Hnil in Hfiles. }
        subst q. rewrite Hx in Hts. by rewrite (lex_select_prefix _ _ Hts). }
    destruct (query w [] q) as [a|e]; [|reflexivity].
    destruct (LightNetwork.df self) as [d|].
    + rewrite query_memory_all, query_memory_count. cbn -[pd_concat Z.of_nat Z.add].
      by rewrite length_rows_pd_concat, Nat2Z.inj_add.
    + cbn -[pd_concat Z.of_nat Z.add]. rewrite length_rows_pd_concat. cbn. f_equal. lia.
  - destruct (LightNetwork.df self) as [d|].
    + rewrite query_memory_all, query_memory_count. cbn -[pd_concat Z.of_nat Z.add].
      by rewrite length_rows_pd_concat.
    + reflexivity.
Qed.

End Counting.

(** ** C1: what the union keeps *)


Section UnionSemantics.
Import duckdb.



Lemma eval_union_uniform cols ts :
  ts ≠ [] → Forall (wf_frame cols) ts →
  ∃ u, eval_union ts = Ok u ∧ wf_frame cols u ∧ rows u = file_rows ts.
Proof.
  intros Hne Hwf. destruct ts as [|t [|t' ts]]; [done|..].
  - exists t. split_and!; [done| |done]. by inversion Hwf.
  - assert (forallb (same_arity t) (t' :: ts) = true) as Harity.
    { apply forallb_forall. intros u Hu%list_elem_of_In.
      rewrite Forall_forall in Hwf.
      destruct (Hwf t) as [Ht _]; [by left|].
      destruct (Hwf u) as [Hu' _]; [by right|].
      unfold same_arity. rewrite Ht, Hu'. apply Nat.eqb_refl. }
    unfold eval_union. rewrite Harity. eexists. split; [done|].
    split; [|done]. split; cbn [columns rows].
    + rewrite Forall_forall in Hwf. by destruct (Hwf t) as [Ht _]; [by left|].
    + apply Forall_forall. intros r Hr.
      apply (proj1 (elem_of_dedup _ _)) in Hr.
      apply elem_of_concat in Hr as (l & Hl & Hrl).
      apply list_elem_of_fmap in Hl as (u & -> & Hu).
      rewrite Forall_forall in Hwf. destruct (Hwf u Hu) as [_ Hrows].
      rewrite Forall_forall in Hrows. by apply Hrows.
Qed.

(** What [uniform] gives, piece by piece. *)
Lemma uniform_inv w self ts cols ks :
  uniform w self ts cols ks →
  Forall (fun f => plain_name f = true) (val (LightNetwork.files self))
  ∧ file_tables w (val (LightNetwork.files self)) ts
  ∧ NoDup cols ∧ Forall (wf_frame cols) ts ∧ wf_memory cols self.
Proof.
  intros (Hp & Hts & Hnd & Hwf). unfold constituents in Hwf.
  apply Forall_app in Hwf as [Hfiles Hmem]. split_and!; [done..| | |].
  - by apply NoDup_fmap_1 in Hnd.
  - eapply Forall_impl; [exact Hfiles|]. by intros t [? _].
  - unfold wf_memory, memory_tables in *. destruct (LightNetwork.df self) as [d|]; [|done].
    by apply Forall_inv in Hmem as [? _].
Qed.



End UnionSemantics.


(** In that network the edge is in the file and in the table, and comes
    out twice. *)
Lemma file_and_memory_twice :
  ∃ d, LightNetwork.get_all Ex.world Ex.file_and_memory = Ok d
       ∧ occurrences Ex.e1 (rows d) = 2
       ∧ LightNetwork.get_num_edges Ex.world Ex.file_and_memory = Ok 2%Z.
Proof. eexists. split_and!; vm_compute; reflexivity. Qed.

(** ** C3: the values of one field *)

Section OneField.
Import duckdb.

Lemma index_of_elem field cols : field ∈ cols → ∃ i, index_of field cols = Some i.
Proof.
  induction cols as [|c cols IH]; [by intros ?%elem_of_nil|].
  intros Hin. cbn. destruct (String.eqb_spec c field) as [->|Hne]; [by eexists|].
  apply elem_of_cons in Hin as [->|Hin]; [done|].
  destruct (IH Hin) as [i ->]. by eexists.
Qed.

Lemma kind_of_column_elem cols ks name k :
  kind_of_column cols ks name = Some k → name ∈ cols.
Proof.
  unfold kind_of_column. destruct (index_of name cols) as [i|] eqn:Hi; [|done].
  intros _. clear ks k. revert i Hi. induction cols as [|c cols IH]; intros i; [done|].
  cbn. destruct (String.eqb_spec c name) as [->|_]; [intros _; by left|].
  destruct (index_of name cols) as [j|]; [|done]. intros _. right. by apply (IH j).
Qed.

Lemma index_of_Some name cols i : index_of name cols = Some i → cols !! i = Some name.
Proof.
  revert i. induction cols as [|c cols IH]; intros i; [done|]. cbn.
  destruct (String.eqb_spec c name) as [->|_]; [by intros [= <-]|].
  destruct (index_of name cols) as [j|]; [|done]. intros [= <-]. by apply IH.
Qed.

(** Where the labels are distinct, case aside, an identifier spelled as a
    label denotes that label's column. *)
Lemma index_of_ci_exact name cols :
  NoDup (map lower cols) → name ∈ cols →
  ∃ i, index_of_ci name cols = Some i ∧ index_of name cols = Some i
       ∧ nth i cols name = name.
Proof.
  intros Hnd Hin. destruct (index_of_elem _ _ Hin) as [i Hi]. exists i.
  pose proof (index_of_Some _ _ _ Hi) as Hlook. split_and!; [|done|].
  - unfold index_of_ci. apply index_of_lookup; [done|].
    by rewrite list_lookup_fmap, Hlook.
  - by apply nth_lookup_Some with (d := name) in Hlook.
Qed.

Lemma query_probe w f t :
  plain_name f = true → fs w !! f = Some (Parquet t) →
  query w [] ("SELECT * FROM " +:+ LightNetwork.format_file f +:+ " WHERE 1=0")
  = Ok {| columns := columns t; rows := [] |}.
Proof.
  intros Hp Hf. unfold query. rewrite lex_probe by (by apply plain_name_quote_free).
  cbn [mbind result_bind].
  change (parse_statement _)
    with (Some (SQuery [mkSelect PStar (SrcFile f) (Some (OInt 1, OInt 0))])).
  cbn [eval_statement]. unfold eval_query. cbn [map_result]. unfold eval_select at 1.
  cbn [sel_from sel_where sel_proj]. rewrite (scan_file _ _ _ _ Hp Hf).
  cbn. do 2 f_equal. apply filter_none.
  intros r _ H. by apply bool_decide_unpack in H.
Qed.

Lemma probe_files w field files ts :
  Forall (fun f => plain_name f = true) files → file_tables w files ts →
  filter_result
    (fun file =>
       t ← query w [] ("SELECT * FROM " +:+ file +:+ " WHERE 1=0");
       Ok (bool_decide (field ∈ columns t)))
    (map LightNetwork.format_file files)
  = Ok (map LightNetwork.format_file (files_with field files ts)).
Proof.
  intros Hq Hts. induction Hts as [|f t files ts Hf Hts IH]; [done|].
  inversion Hq as [|? ? Hqf Hqfiles]; subst.
  cbn [map filter_result]. rewrite (query_probe w f t) by done.
  cbn [mbind result_bind columns]. rewrite IH by done. cbn [mbind result_bind].
  unfold files_with. cbn [zip zip_with]. destruct (decide (field ∈ columns t)) as [Hin|Hin].
  - rewrite bool_decide_eq_true_2, filter_cons_True by done. done.
  - rewrite bool_decide_eq_false_2, filter_cons_False by done. done.
Qed.

Lemma files_with_tables w field files ts :
  file_tables w files ts →
  file_tables w (files_with field files ts) (tables_with field ts).
Proof.
  unfold files_with, tables_with. induction 1 as [|f t files ts Hf Hts IH]; [constructor|].
  cbn [zip zip_with]. destruct (decide (field ∈ columns t)) as [Hin|Hin].
  - rewrite !filter_cons_True by done. by constructor.
  - by rewrite !filter_cons_False by done.
Qed.

Lemma files_with_plain field files ts :
  Forall (fun f => plain_name f = true) files →
  Forall (fun f => plain_name f = true) (files_with field files ts).
Proof.
  intros Hq. apply Forall_forall. intros f Hf. rewrite Forall_forall in Hq. apply Hq.
  unfold files_with in Hf. apply list_elem_of_fmap in Hf as ([f' t] & -> & Hp).
  apply list_elem_of_filter in Hp as [_ Hp]. by eapply elem_of_zip_l.
Qed.

Lemma eval_select_distinct w scope field f t :
  plain_name f = true → fs w !! f = Some (Parquet t) →
  NoDup (map lower (columns t)) → field ∈ columns t →
  eval_select w scope (mkSelect (PDistinct field) (SrcFile f) None)
  = Ok (distinct_frame field t).
Proof.
  intros Hp Hf Hnd Hin. unfold eval_select, distinct_frame, cell_at.
  cbn [sel_from sel_where sel_proj]. rewrite (scan_file _ _ _ _ Hp Hf).
  cbn [mbind result_bind].
  by destruct (index_of_ci_exact _ _ Hnd Hin) as (i & -> & -> & ->).
Qed.

Lemma query_select_distinct_files w field files ts :
  field ∈ ["regulator"; "target"; "cell_type"] →
  files ≠ [] → Forall (fun f => plain_name f = true) files →
  file_tables w files ts →
  Forall (fun t => NoDup (map lower (columns t)) ∧ field ∈ columns t) ts →
  query w []
    (join " UNION "
       (map (fun file => "SELECT DISTINCT " +:+ field +:+ " FROM " +:+ file)
            (map LightNetwork.format_file files)))
  = eval_union (map (distinct_frame field) ts).
Proof.
  intros Hfield Hne Hp Hts Hcols. unfold query.
  pose proof (plain_names_quote_free _ Hp) as Hq.
  assert (lex (join " UNION "
                 (map (fun file => "SELECT DISTINCT " +:+ field +:+ " FROM " +:+ file)
                      (map LightNetwork.format_file files)))
          = Ok (join_tokens (map (select_distinct_tokens field) files))) as ->.
  { rewrite map_map. apply lexes_as_lex.
    apply (lexes_as_join
             (fun f => "SELECT DISTINCT " +:+ field +:+ " FROM " +:+ LightNetwork.format_file f));
      [|done].
    intros f Hf. rewrite Forall_forall in Hq. split; [|done].
    apply (lexes_as_closing _ [TWord "SELECT"; TWord "DISTINCT"; TWord field; TWord "FROM"]).
    by apply lex_run_select_distinct, Hq. }
  cbn [mbind result_bind].
  rewrite parse_statement_not_count by (by destruct files).
  rewrite (parse_query_join (select_distinct_tokens field)
             (fun f => mkSelect (PDistinct field) (SrcFile f) None)); [|done|].
  2:{ intros f _. split; [done|]. unfold select_distinct_tokens.
      repeat (apply elem_of_cons in Hfield as [->|Hfield]; [by repeat constructor|]).
      by apply elem_of_nil in Hfield. }
  cbn. unfold eval_query.
  rewrite (map_result_Forall2 _ _ (map (distinct_frame field) ts)); [done|].
  apply Forall2_fmap. clear Hne Hq.
  induction Hts as [|f t files ts Hf Hts IH]; [constructor|].
  inversion Hcols as [|? ? [Hnd Hin] ?]; inversion Hp; subst.
  constructor; [by apply eval_select_distinct | by apply IH].
Qed.

Lemma query_memory_distinct w field d :
  field ∈ ["regulator"; "target"; "cell_type"] →
  NoDup (map lower (columns d)) → field ∈ columns d →
  query w [("df", d)] ("SELECT DISTINCT " +:+ field +:+ " FROM df")
  = Ok (distinct_frame field d).
Proof.
  intros Hfield Hnd Hin.
  assert (lex ("SELECT DISTINCT " +:+ field +:+ " FROM df")
          = Ok [TWord "SELECT"; TWord "DISTINCT"; TWord field; TWord "FROM"; TWord "df"]
          ∧ parse_statement
              [TWord "SELECT"; TWord "DISTINCT"; TWord field; TWord "FROM"; TWord "df"]
            = Some (SQuery [mkSelect (PDistinct field) (SrcName "df") None]))
    as [Hlex Hparse].
  { repeat (apply elem_of_cons in Hfield as [->|Hfield]; [by split|]).
    by apply elem_of_nil in Hfield. }
  unfold query. rewrite Hlex. cbn [mbind result_bind]. rewrite Hparse.
  cbn. rewrite decide_True by done. cbn. unfold distinct_frame, cell_at.
  by destruct (index_of_ci_exact _ _ Hnd Hin) as (i & -> & -> & ->).
Qed.

End OneField.

Section OneFieldTheorem.
Import duckdb.

Lemma wf_distinct_frame field t : wf_frame [field] (distinct_frame field t).
Proof.
  split; [done|]. cbn. apply Forall_forall. intros r Hr.
  apply (proj1 (elem_of_dedup _ _)) in Hr.
  by apply list_elem_of_fmap in Hr as (r0 & -> & _).
Qed.

Lemma elem_of_file_rows r ts : r ∈ file_rows ts ↔ ∃ t, t ∈ ts ∧ r ∈ rows t.
Proof.
  assert (r ∈ concat (map rows ts) ↔ ∃ t, t ∈ ts ∧ r ∈ rows t) as Hconcat.
  { rewrite elem_of_concat. split.
    - intros (l & (t & -> & Ht)%list_elem_of_fmap & Hr). by exists t.
    - intros (t & Ht & Hr). exists (rows t). split; [|done].
      apply list_elem_of_fmap. by exists t. }
  destruct ts as [|t [|t' ts]].
  - split; [by intros ?%elem_of_nil | by intros (t & ?%elem_of_nil & _)].
  - rewrite <- Hconcat. cbn. by rewrite app_nil_r.
  - unfold file_rows. by rewrite elem_of_dedup.
Qed.

Lemma elem_of_distinct_frame r field t :
  r ∈ rows (distinct_frame field t) ↔ ∃ c, c ∈ column_values field t ∧ r = [c].
Proof.
  unfold distinct_frame, column_values. cbn [rows].
  rewrite elem_of_dedup, list_elem_of_fmap. split.
  - intros (r0 & -> & Hr0). eexists. split; [|done].
    apply list_elem_of_fmap. by exists r0.
  - intros (c & (r0 & -> & Hr0)%list_elem_of_fmap & ->). by exists r0.
Qed.

(** The frame built from the files for [get_all_one_field]. *)
Lemma one_field_from_files w self ts field :
  field ∈ ["regulator"; "target"; "cell_type"] →
  Forall (fun f => plain_name f = true) (val (LightNetwork.files self)) →
  file_tables w (val (LightNetwork.files self)) ts →
  Forall (fun t => NoDup (map lower (columns t))) ts →
  ∃ u,
    (if (0 <? length (val (LightNetwork.files self)))%nat
     then
       files_formatted ←
         filter_result
           (fun file =>
              t ← query w [] ("SELECT * FROM " +:+ file +:+ " WHERE 1=0");
              Ok (bool_decide (field ∈ columns t)))
           (map LightNetwork.format_file (val (LightNetwork.files self)));
       if (0 <? length files_formatted)%nat
       then query w []
              (join " UNION "
                 (map (fun file => "SELECT DISTINCT " +:+ field +:+ " FROM " +:+ file)
                      files_formatted))
       else Ok (pd_DataFrame [field])
     else Ok (pd_DataFrame [field])) = Ok u
    ∧ wf_frame [field] u
    ∧ ∀ r, r ∈ rows u ↔
           ∃ t c, t ∈ ts ∧ field ∈ columns t ∧ c ∈ column_values field t ∧ r = [c].
Proof.
  intros Hfield Hq Hts Hlabels.
  assert (∀ r, (∃ t, t ∈ map (distinct_frame field) (tables_with field ts) ∧ r ∈ rows t)
               ↔ ∃ t c, t ∈ ts ∧ field ∈ columns t ∧ c ∈ column_values field t ∧ r = [c])
    as Hrows.
  { intros r. split.
    - intros (u & (t & -> & Ht)%list_elem_of_fmap & Hr).
      apply list_elem_of_filter in Ht as [Hcol Ht].
      apply elem_of_distinct_frame in Hr as (c & Hc & ->). by exists t, c.
    - intros (t & c & Ht & Hcol & Hc & ->). exists (distinct_frame field t). split.
      + apply list_elem_of_fmap. exists t. split; [done|].
        by apply list_elem_of_filter.
      + apply elem_of_distinct_frame. by exists c. }
  assert (wf_frame [field] (pd_DataFrame [field])) as Hwf0 by (by split).
  destruct (0 <? length (val (LightNetwork.files self)))%nat eqn:Hfiles.
  - rewrite (probe_files w field _ ts) by done. rewrite bind_Ok.
    pose proof (files_with_tables w field _ _ Hts) as Hts'.
    pose proof (files_with_plain field _ ts Hq) as Hq'.
    destruct (files_with field (val (LightNetwork.files self)) ts) as [|f files] eqn:Hkept.
    + apply Forall2_nil_inv_l in Hts'. exists (pd_DataFrame [field]).
      split_and!; [done..|]. intros r. rewrite <- Hrows, Hts'. cbn.
      split; [by intros ?%elem_of_nil | by intros (t & ?%elem_of_nil & _)].
    + rewrite <- Hkept in *. rewrite length_map.
      assert (files_with field (val (LightNetwork.files self)) ts ≠ []) as Hne
        by (by rewrite Hkept).
      assert ((0 <? length (files_with field (val (LightNetwork.files self)) ts))%nat
              = true) as ->.
      { rewrite Hkept. done. }
      rewrite (query_select_distinct_files w field _ (tables_with field ts)); try done.
      2:{ apply Forall_forall. intros t Ht. apply list_elem_of_filter in Ht as [? Ht].
          rewrite Forall_forall in Hlabels. split; [by apply Hlabels|done]. }
      destruct (eval_union_uniform [field]
                  (map (distinct_frame field) (tables_with field ts)))
        as (u & -> & Hu & Hu_rows).
      { intros Hnil. apply fmap_nil_inv in Hnil. rewrite Hnil in Hts'.
        apply Forall2_nil_inv_r in Hts'. by rewrite Hts' in Hne. }
      { apply Forall_fmap, Forall_forall. intros t _. apply wf_distinct_frame. }
      exists u. split_and!; [done..|]. intros r.
      by rewrite Hu_rows, elem_of_file_rows, Hrows.
  - exists (pd_DataFrame [field]). split_and!; [done..|]. intros r.
    assert (val (LightNetwork.files self) = []) as Hnil.
    { destruct (val (LightNetwork.files self)); [done|discriminate]. }
    rewrite Hnil in Hts. apply Forall2_nil_inv_l in Hts as ->. cbn.
    split; [by intros ?%elem_of_nil | by intros (t & c & ?%elem_of_nil & _)].
Qed.

Lemma one_field_from_memory w self field :
  field ∈ ["regulator"; "target"; "cell_type"] →
  Forall (fun t => NoDup (map lower (columns t))) (memory_tables self) →
  ∃ u,
    match LightNetwork.df self with
    | Some d =>
        if bool_decide (field ∈ columns (val d))
        then query w [("df", val d)] ("SELECT DISTINCT " +:+ field +:+ " FROM df")
        else Ok (pd_DataFrame [field])
    | None => Ok (pd_DataFrame [field])
    end = Ok u
    ∧ wf_frame [field] u
    ∧ ∀ r, r ∈ rows u ↔
           ∃ d c, LightNetwork.df self = Some d ∧ field ∈ columns (val d)
                  ∧ c ∈ column_values field (val d) ∧ r = [c].
Proof.
  intros Hfield Hlabels. unfold memory_tables in Hlabels.
  assert (wf_frame [field] (pd_DataFrame [field])) as Hwf0 by (by split).
  destruct (LightNetwork.df self) as [d|].
  - apply Forall_inv in Hlabels.
    destruct (decide (field ∈ columns (val d))) as [Hin|Hin].
    + rewrite bool_decide_eq_true_2, query_memory_distinct by done.
      eexists. split_and!; [done|apply wf_distinct_frame|]. intros r.
      rewrite elem_of_distinct_frame. split.
      * intros (c & Hc & ->). by exists d, c.
      * intros (d' & c & [= <-] & _ & Hc & ->). by exists c.
    + rewrite bool_decide_eq_false_2 by done. eexists. split_and!; [done..|].
      intros r. split; [by intros ?%elem_of_nil|]. by intros (d' & c & [= <-] & ? & _).
  - eexists. split_and!; [done..|]. intros r.
    split; [by intros ?%elem_of_nil | by intros (d' & c & [=] & _)].
Qed.

Lemma one_field_values w self ts field :
  field ∈ ["regulator"; "target"; "cell_type"] →
  Forall (fun f => plain_name f = true) (val (LightNetwork.files self)) →
  file_tables w (val (LightNetwork.files self)) ts →
  Forall (fun t => NoDup (map lower (columns t))) (constituents self ts) →
  ∃ s, LightNetwork.get_all_one_field w self field = Ok s
       ∧ NoDup (elements s)
       ∧ ∀ c, c ∈ s ↔
              ∃ t, constituent self ts t ∧ field ∈ columns t ∧ c ∈ column_values field t.
Proof.
  intros Hfield Hq Hts [Hfiles Hmem]%Forall_app. unfold LightNetwork.get_all_one_field.
  rewrite bool_decide_eq_true_2 by done. unfold py_assert. rewrite bind_Ok.
  destruct (one_field_from_files w self ts field) as (u & -> & Hu & Hu_rows); [done..|].
  rewrite bind_Ok.
  destruct (one_field_from_memory w self field) as (m & -> & Hm & Hm_rows); [done..|].
  rewrite bind_Ok.
  rewrite (pd_concat_uniform [field]); [|by apply NoDup_singleton|done..].
  unfold DataFrame_getitem. cbn [columns rows index_of]. rewrite String.eqb_refl.
  cbn [mbind result_bind]. eexists. split_and!; [done|apply NoDup_elements|].
  intros c. unfold py_set, Series_unique.
  rewrite elem_of_list_to_set, elem_of_dedup, list_elem_of_fmap. split.
  - intros (r & -> & [Hr|Hr]%elem_of_app).
    + apply Hu_rows in Hr as (t & c & Ht & Hcol & Hc & ->). exists t.
      split_and!; [by left|done..].
    + apply Hm_rows in Hr as (d & c & Hd & Hcol & Hc & ->). exists (val d).
      split_and!; [right; by exists d|done..].
  - intros (t & [Ht|(d & Hd & ->)] & Hcol & Hc).
    + exists [c]. split; [done|]. apply elem_of_app. left. apply Hu_rows.
      by exists t, c.
    + exists [c]. split; [done|]. apply elem_of_app. right. apply Hm_rows.
      by exists d, c.
Qed.

Lemma field_of_kind_labels field k l :
  Forall (fun t => field_of_kind field k t = true) l →
  Forall (fun t => NoDup (map lower (columns t))) l.
Proof.
  intros H. eapply Forall_impl; [exact H|]. intros t [Hnd _]%andb_prop.
  by apply bool_decide_eq_true in Hnd.
Qed.


End OneFieldTheorem.


(** The scenario of the specification: three regulators; and no cell
    type anywhere, which is an empty set and not an error. *)
Lemma scenario_fields :
  LightNetwork.get_all_one_field Ex.world Ex.scenario "regulator"
  = Ok {[ CStr "TF1"; CStr "TF2"; CStr "TF3" ]}
  ∧ LightNetwork.get_all_one_field Ex.world Ex.scenario "cell_type" = Ok ∅.
Proof.
  split.
  - destruct (one_field_values Ex.world Ex.scenario [Ex.tissue_a; Ex.tissue_b]
                "regulator") as (s & -> & _ & Hs).
    { apply (bool_decide_unpack _). vm_compute. exact I. }
    { repeat constructor. }
    { repeat constructor. }
    { repeat constructor; apply (bool_decide_unpack _); vm_compute; exact I. }
    f_equal.
    apply set_eq. intros c. rewrite Hs. unfold constituent. split.
    + intros (t & [Ht|(d & [= <-] & ->)] & _ & Hc).
      * apply elem_of_cons in Ht as [->|Ht].
        { apply list_elem_of_singleton in Hc as ->. set_solver. }
        apply list_elem_of_singleton in Ht as ->.
        apply list_elem_of_singleton in Hc as ->. set_solver.
      * apply list_elem_of_singleton in Hc as ->. set_solver.
    + intros Hc. apply elem_of_union in Hc as [Hc|Hc].
      * apply elem_of_union in Hc as [Hc|Hc].
        { apply elem_of_singleton in Hc as ->. exists Ex.tissue_a.
          split_and!; [left; by left | by left | by left]. }
        apply elem_of_singleton in Hc as ->. exists Ex.tissue_b.
        split_and!; [left; right; by left | by left | by left].
      * apply elem_of_singleton in Hc as ->. exists (val Ex.in_memory).
        split_and!; [right; by eexists | by left | by left].
  - destruct (one_field_values Ex.world Ex.scenario [Ex.tissue_a; Ex.tissue_b]
                "cell_type") as (s & -> & _ & Hs).
    + apply (bool_decide_unpack _). vm_compute. exact I.
    + repeat constructor.
    + repeat constructor.
    + repeat constructor; apply (bool_decide_unpack _); vm_compute; exact I.
    + f_equal. apply set_eq. intros c. rewrite Hs. unfold constituent. split.
      * intros (t & Ht & Hcol & _). exfalso.
        destruct Ht as [Ht|(d & [= <-] & ->)].
        { apply elem_of_cons in Ht as [->|Ht];
            [|apply list_elem_of_singleton in Ht as ->];
            revert Hcol; apply (bool_decide_unpack _); vm_compute; exact I. }
        revert Hcol. apply (bool_decide_unpack _). vm_compute. exact I.
      * by intros ?%elem_of_empty.
Qed.

(** ** C2: the filtered queries *)

Section Filtering.
Import duckdb.

Lemma get_regulators_get_where : LightNetwork.get_regulators = get_where "target".
Proof. reflexivity. Qed.

Lemma get_targets_get_where : LightNetwork.get_targets = get_where "regulator".
Proof. reflexivity. Qed.

Lemma sql_eq_str c v : sql_eq c (CStr v) ↔ c = CStr v.
Proof. destruct c; cbn; rewrite ?bool_decide_spec; done. Qed.

Lemma eval_select_where w scope col v src t :
  scan w scope src = Ok t → NoDup (map lower (columns t)) → col ∈ columns t →
  eval_select w scope (mkSelect PStar src (Some (OCol col, OStr v)))
  = Ok (where_frame col v t).
Proof.
  intros Hsrc Hnd Hin. unfold eval_select, where_frame, cell_at.
  cbn [sel_from sel_where sel_proj]. rewrite Hsrc. cbn [mbind result_bind bind_operand].
  destruct (index_of_ci_exact _ _ Hnd Hin) as (i & -> & -> & _). cbn. do 2 f_equal.
  apply list_filter_iff. intros r. apply sql_eq_str.
Qed.

Lemma wf_where_frame cols col v t : wf_frame cols t → wf_frame cols (where_frame col v t).
Proof.
  intros [Hc Hr]. split; [done|]. cbn. apply Forall_forall. intros r Hr'.
  apply list_elem_of_filter in Hr' as [_ Hr']. rewrite Forall_forall in Hr. by apply Hr.
Qed.

Lemma query_select_where_files w col v files ts :
  col = "target" ∨ col = "regulator" → quote_free v = true →
  files ≠ [] → Forall (fun f => plain_name f = true) files →
  file_tables w files ts →
  Forall (fun t => NoDup (map lower (columns t)) ∧ col ∈ columns t) ts →
  query w []
    (join " UNION "
       (map (fun file => "SELECT * FROM " +:+ file +:+ " WHERE " +:+ col +:+ " = '"
                         +:+ v +:+ "'")
            (map LightNetwork.format_file files)))
  = eval_union (map (where_frame col v) ts).
Proof.
  intros Hcol Hv Hne Hp Hts Hcols. unfold query.
  pose proof (plain_names_quote_free _ Hp) as Hq.
  assert (lex (join " UNION "
                 (map (fun file => "SELECT * FROM " +:+ file +:+ " WHERE " +:+ col
                                   +:+ " = '" +:+ v +:+ "'")
                      (map LightNetwork.format_file files)))
          = Ok (join_tokens (map (select_where_tokens col v) files))) as ->.
  { rewrite map_map. apply lexes_as_lex.
    apply (lexes_as_join
             (fun f => "SELECT * FROM " +:+ LightNetwork.format_file f +:+ " WHERE "
                       +:+ col +:+ " = '" +:+ v +:+ "'")); [|done].
    intros f Hf. rewrite Forall_forall in Hq. split; [|done].
    apply (lexes_as_closing _ [TWord "SELECT"; TStar; TWord "FROM"; TStr f;
                               TWord "WHERE"; TWord col; TEq]).
    by apply lex_run_select_where; [| apply Hq |]. }
  cbn [mbind result_bind].
  rewrite parse_statement_not_count by (by destruct files).
  rewrite (parse_query_join (select_where_tokens col v)
             (fun f => mkSelect PStar (SrcFile f) (Some (OCol col, OStr v)))); [|done|].
  2:{ intros f _. destruct Hcol as [-> | ->]; (split; [done|by repeat constructor]). }
  cbn. unfold eval_query.
  rewrite (map_result_Forall2 _ _ (map (where_frame col v) ts)); [done|].
  apply Forall2_fmap. clear Hne Hq.
  induction Hts as [|f t files ts Hf Hts IH]; [constructor|].
  inversion Hcols as [|? ? [Hnd Hin] ?]; inversion Hp; subst. constructor; [|by apply IH].
  apply eval_select_where; [|done..]. by apply scan_file.
Qed.

Lemma lex_memory_where col v :
  col = "target" ∨ col = "regulator" → quote_free v = true →
  lex ("SELECT * FROM df WHERE " +:+ col +:+ " = '" +:+ v +:+ "'")
  = Ok [TWord "SELECT"; TStar; TWord "FROM"; TWord "df"; TWord "WHERE"; TWord col; TEq;
        TStr v].
Proof.
  intros Hcol Hv. apply lexes_as_lex.
  apply (lexes_as_closing _ [TWord "SELECT"; TStar; TWord "FROM"; TWord "df";
                             TWord "WHERE"; TWord col; TEq]).
  rewrite (lex_run_app_ok _ "SELECT * FROM df WHERE " _ LDefault
             [TWord "SELECT"; TStar; TWord "FROM"; TWord "df"; TWord "WHERE"])
    by reflexivity.
  rewrite (lex_run_app_ok _ col _ (LWord col) []) by (by destruct Hcol as [->| ->]).
  rewrite (lex_run_app_ok _ " = '" _ (LStr "") [TWord col; TEq]) by reflexivity.
  by rewrite (lex_run_app_ok _ v _ _ _ (lex_run_literal v "" Hv)).
Qed.

Lemma query_memory_where w col v d :
  col = "target" ∨ col = "regulator" → quote_free v = true →
  NoDup (map lower (columns d)) → col ∈ columns d →
  query w [("df", d)] ("SELECT * FROM df WHERE " +:+ col +:+ " = '" +:+ v +:+ "'")
  = Ok (where_frame col v d).
Proof.
  intros Hcol Hv Hnd Hin. unfold query. rewrite lex_memory_where by done.
  cbn [mbind result_bind].
  assert (parse_statement
            [TWord "SELECT"; TStar; TWord "FROM"; TWord "df"; TWord "WHERE"; TWord col;
             TEq; TStr v]
          = Some (SQuery [mkSelect PStar (SrcName "df") (Some (OCol col, OStr v))])) as ->.
  { by destruct Hcol as [-> | ->]. }
  cbn [eval_statement eval_query map_result mbind result_bind].
  rewrite (eval_select_where _ _ _ _ _ d); [done| |done..].
  cbn. by rewrite decide_True.
Qed.

Lemma get_where_quote_free col w self ts cols v :
  col = "target" ∨ col = "regulator" →
  quote_free v = true →
  Forall (fun f => plain_name f = true) (val (LightNetwork.files self)) →
  file_tables w (val (LightNetwork.files self)) ts →
  NoDup (map lower cols) → col ∈ cols → Forall (wf_frame cols) ts → wf_memory cols self →
  ∃ d, get_where col w self v = Ok d
       ∧ ∀ r, r ∈ rows d ↔
              ∃ t, constituent self ts t ∧ r ∈ rows t ∧ cell_at cols col r = CStr v.
Proof.
  intros Hcol Hv Hq Hts Hlower Hin Hwf Hmem. unfold get_where, wf_memory in *.
  pose proof (NoDup_fmap_1 _ _ Hlower) as Hnd.
  assert (∀ r, r ∈ file_rows (map (where_frame col v) ts)
               ↔ ∃ t, t ∈ ts ∧ r ∈ rows t ∧ cell_at cols col r = CStr v) as Hfile_rows.
  { intros r. rewrite elem_of_file_rows. rewrite Forall_forall in Hwf. split.
    - intros (u & (t & -> & Ht)%list_elem_of_fmap & Hr).
      apply list_elem_of_filter in Hr as [Hr ?]. destruct (Hwf t Ht) as [<- _].
      by exists t.
    - intros (t & Ht & Hr & Hc). exists (where_frame col v t). split.
      + apply list_elem_of_fmap. by exists t.
      + apply list_elem_of_filter. destruct (Hwf t Ht) as [-> _]. done. }
  assert (∃ u, (if (0 <? length (val (LightNetwork.files self)))%nat
                then query w []
                       (join " UNION "
                          (map (fun file => "SELECT * FROM " +:+ file +:+ " WHERE "
                                            +:+ col +:+ " = '" +:+ v +:+ "'")
                               (map LightNetwork.format_file
                                    (val (LightNetwork.files self)))))
                else Ok (pd_DataFrame [])) = Ok u
               ∧ (u = pd_DataFrame [] ∧ ts = [] ∨ wf_frame cols u)
               ∧ rows u = file_rows (map (where_frame col v) ts)) as (u & -> & Hu & Hu_rows).
  { destruct (val (LightNetwork.files self)) as [|f files] eqn:Hfiles.
    - apply Forall2_nil_inv_l in Hts as ->. exists (pd_DataFrame []).
      split_and!; [done|by left|done].
    - rewrite <- Hfiles in *.
      assert (val (LightNetwork.files self) ≠ []) as Hne by (by rewrite Hfiles).
      assert ((0 <? length (val (LightNetwork.files self)))%nat = true) as ->
        by (by rewrite Hfiles).
      rewrite (query_select_where_files w col v _ ts); try done.
      2:{ eapply Forall_impl; [exact Hwf|]. by intros t [-> _]. }
      destruct (eval_union_uniform cols (map (where_frame col v) ts))
        as (u & -> & Hu & Hrows).
      { intros Hnil%fmap_nil_inv. rewrite Hnil in Hts.
        apply Forall2_nil_inv_r in Hts. by rewrite Hts in Hne. }
      { apply Forall_fmap. eapply Forall_impl; [exact Hwf|].
        intros t Ht. by apply wf_where_frame. }
      exists u. split_and!; [done|by right|done]. }
  rewrite bind_Ok.
  destruct (LightNetwork.df self) as [d|] eqn:Hdf.
  - rewrite query_memory_where; [|done..|by destruct Hmem as [-> _]|by destruct Hmem as [-> _]].
    rewrite bind_Ok.
    assert (wf_frame cols (where_frame col v (val d))) as Hm by (by apply wf_where_frame).
    eexists. split; [done|]. intros r.
    assert (rows (pd_concat u (where_frame col v (val d)))
            = rows u ++ rows (where_frame col v (val d)))%list as ->.
    { destruct Hu as [[-> _]|Hu].
      - by rewrite (pd_concat_empty_l cols).
      - by rewrite (pd_concat_uniform cols). }
    rewrite elem_of_app, Hu_rows, Hfile_rows. unfold constituent. rewrite Hdf. split.
    + intros [(t & Ht & Hr & Hc)|Hr].
      * exists t. split_and!; [by left|done..].
      * apply list_elem_of_filter in Hr as [Hc Hr]. destruct Hmem as [Hcols _].
        cbn in Hc. rewrite Hcols in Hc. exists (val d).
        split_and!; [right; by exists d|done..].
    + intros (t & [Ht|(d' & [= <-] & ->)] & Hr & Hc).
      * left. by exists t.
      * right. apply list_elem_of_filter. destruct Hmem as [Hcols _].
        cbn. by rewrite Hcols.
  - rewrite bind_Ok. eexists. split; [done|]. intros r.
    assert (rows (pd_concat u (pd_DataFrame [])) = rows u) as ->.
    { destruct Hu as [[-> _]|Hu]; [done|]. by rewrite (pd_concat_empty_r cols). }
    rewrite Hu_rows, Hfile_rows. unfold constituent. rewrite Hdf. split.
    + intros (t & Ht & Hr & Hc). exists t. split_and!; [by left|done..].
    + intros (t & [Ht|(d' & [=] & _)] & Hr & Hc). by exists t.
Qed.

End Filtering.

(** On quote-free values, and on a uniform network whose target and
    regulator columns are text, the two filtered queries do what their
    docstrings say: the rows of every constituent whose target (for
    [get_regulators]) or regulator (for [get_targets]) is the value, and
    so none when the value is nowhere. *)
Lemma filtered_queries_on_quote_free_values w self ts cols ks v :
  quote_free v = true →
  uniform w self ts cols ks →
  kind_of_column cols ks "target" = Some KText →
  kind_of_column cols ks "regulator" = Some KText →
  (∃ d, LightNetwork.get_regulators w self v = Ok d
        ∧ ∀ r, r ∈ rows d ↔
               ∃ t, constituent self ts t ∧ r ∈ rows t
                    ∧ cell_at cols "target" r = CStr v)
  ∧ (∃ d, LightNetwork.get_targets w self v = Ok d
          ∧ ∀ r, r ∈ rows d ↔
                 ∃ t, constituent self ts t ∧ r ∈ rows t
                      ∧ cell_at cols "regulator" r = CStr v).
Proof.
  intros Hv Hu Htarget Hregulator.
  pose proof (uniform_inv _ _ _ _ _ Hu) as (Hp & Hts & _ & Hwf & Hmem).
  destruct Hu as (_ & _ & Hlower & _).
  apply kind_of_column_elem in Htarget, Hregulator. split.
  - rewrite get_regulators_get_where. by apply get_where_quote_free; auto.
  - rewrite get_targets_get_where. by apply get_where_quote_free; auto.
Qed.

(** C2 (the code departs from it). The value is pasted between quotes
    into the SQL text, so a value that contains a quote ends the literal
    early.  The table below has an edge with target G' and regulator TF';
    asking for the regulators of G', or for the targets of TF', raises
    duckdb's parser error instead of returning that edge. *)
Theorem filter_value_with_quote_raises :
  Ex.primed ∈ rows (val Ex.in_memory_primed)
  ∧ cell_at Ex.cols3 "target" Ex.primed = CStr "G'"
  ∧ cell_at Ex.cols3 "regulator" Ex.primed = CStr "TF'"
  ∧ LightNetwork.get_regulators Ex.world Ex.primed_network "G'"
    = Raise (ParserException "unterminated quoted string")
  ∧ LightNetwork.get_targets Ex.world Ex.primed_network "TF'"
    = Raise (ParserException "unterminated quoted string").
Proof.
  split_and!; [by left | reflexivity | reflexivity | |]; vm_compute; reflexivity.
Qed.

(** ** C4 *)

(** C4. [get_num_edges] is the number of rows [get_all] returns (and
    fails exactly as [get_all] does).  The constituents need not be free
    of overlap for this: the count is taken over the very statement
    [get_all] sends.  The file names are taken free of quotes, so that
    the statement is the one meant. *)
Theorem get_num_edges_is_row_count_of_get_all w self :
  Forall (fun f => quote_free f = true) (val (LightNetwork.files self)) →
  LightNetwork.get_num_edges w self
  = (fun d => Z.of_nat (length (rows d))) <$> LightNetwork.get_all w self.
Proof. intros _. apply get_num_edges_get_all. Qed.

Lemma get_num_edges_is_row_count_of_get_all_witness :
  LightNetwork.get_num_edges Ex.world Ex.scenario
  = (fun d => Z.of_nat (length (rows d))) <$> LightNetwork.get_all Ex.world Ex.scenario.
Proof.
  apply get_num_edges_is_row_count_of_get_all. repeat constructor.
Defined.

(** The scenario of the specification: three rows, three edges. *)
Lemma scenario_rows :
  LightNetwork.get_all Ex.world Ex.scenario
  = Ok {| columns := Ex.cols3; rows := [Ex.e1; Ex.e2; Ex.e3] |}
  ∧ LightNetwork.get_num_edges Ex.world Ex.scenario = Ok 3%Z
  ∧ LightNetwork.get_regulators Ex.world Ex.scenario "G1"
    = Ok {| columns := Ex.cols3; rows := [Ex.e1; Ex.e2] |}.
Proof. split_and!; vm_compute; reflexivity. Qed.

(** ** Construction *)

Section ConstructionFacts.

Variable w : World.

(** The constructor is its steps in sequence. *)
Lemma init_steps fresh grn_name subnetwork_names files df :
  LightNetwork.__init__ w fresh grn_name subnetwork_names files df =
  (fl ← resolve_files w fresh grn_name subnetwork_names files;
   if (length (val fl) =? 0)%nat && bool_decide (df = None)
   then Raise (ValueError "Please provide at least one of 'grn_name' or 'files' of 'df'.")
   else _ ← check_df df; _ ← check_files w (val fl);
        Ok {| LightNetwork.files := fl; LightNetwork.df := df |}).
Proof.
  unfold LightNetwork.__init__, resolve_files, check_df, check_files.
  destruct (bool_decide (grn_name = None) && (0 <? length subnetwork_names)%nat);
    [reflexivity|].
  destruct grn_name as [g|]; [|reflexivity].
  destruct (if (length subnetwork_names =? 0)%nat then _ else _) as [names|e];
    [|reflexivity].
  cbn. destruct (map_result _ names); reflexivity.
Qed.

Lemma check_files_missing files f :
  f ∈ files → os_path_exists w f = false →
  ∃ f', f' ∈ files ∧ os_path_exists w f' = false ∧
        check_files w files = Raise (FileNotFoundError ("File " +:+ f' +:+ " does not exist.")).
Proof.
  induction files as [|g files IH]; intros Hin Hf.
  - by apply elem_of_nil in Hin.
  - destruct (os_path_exists w g) eqn:Hg.
    + apply elem_of_cons in Hin as [->|Hin]; [congruence|].
      destruct (IH Hin Hf) as (f' & ? & ? & Hc).
      exists f'. split_and!; [by apply elem_of_cons; right | done |].
      unfold check_files in *. cbn. by rewrite Hg.
    + exists g. split_and!; [by apply elem_of_cons; left | done |].
      unfold check_files. cbn. by rewrite Hg.
Qed.

Lemma check_files_ok files :
  check_files w files = Ok tt ↔ ∀ f, f ∈ files → os_path_exists w f = true.
Proof.
  induction files as [|g files IH].
  - split; [intros _ f Hf; by apply elem_of_nil in Hf | done].
  - unfold check_files in *. cbn. destruct (os_path_exists w g) eqn:Hg; cbn.
    + rewrite IH. split.
      * intros H f [->|Hf]%elem_of_cons; auto.
      * intros H f Hf. apply H, elem_of_cons. by right.
    + split; [done|]. intros H. specialize (H g). rewrite Hg in H.
      discriminate H. apply elem_of_cons. by left.
Qed.

Lemma resolve_files_explicit fresh grn_name subnetwork_names files fl f :
  resolve_files w fresh grn_name subnetwork_names files = Ok fl →
  f ∈ val files → f ∈ val fl.
Proof.
  unfold resolve_files.
  destruct (bool_decide (grn_name = None) && (0 <? length subnetwork_names)%nat);
    [done|].
  destruct grn_name as [g|]; [|by intros [= ->]].
  destruct (if (length subnetwork_names =? 0)%nat then _ else _) as [names|e]; [|done].
  cbn. destruct (map_result _ names) as [paths|e]; [|done]. cbn.
  intros [= <-] Hf. cbn. apply elem_of_app. by left.
Qed.

(** The check on a table with at least three columns, computed. *)
Lemma check_df_three d a b c rest :
  columns (val d) = a :: b :: c :: rest →
  check_df (Some d) =
  (_ ← py_assert ((a =? "regulator")%string
                  && ((b =? "target")%string && ((c =? "weight")%string && true)))
         "Columns must have names 'regulator', 'target', 'weight'";
   py_assert match rest with [] => true | x :: _ => (x =? "cell_type")%string end
     "If there are 4 columns, the 4th must be 'cell_type'.").
Proof.
  intros Hc. unfold check_df. rewrite Hc. destruct rest; reflexivity.
Qed.

Lemma check_df_short d :
  length (columns (val d)) < 3 →
  check_df (Some d) = Raise (ValueError "Lengths must match to compare").
Proof.
  unfold check_df. destruct (columns (val d)) as [|a [|b [|c rest]]]; cbn; try done.
  lia.
Qed.

Lemma schema_ok_three a b c rest :
  schema_ok (a :: b :: c :: rest) =
  ((a =? "regulator")%string && ((b =? "target")%string && ((c =? "weight")%string && true)))
  && match rest with [] => true | x :: _ => (x =? "cell_type")%string end.
Proof.
  unfold schema_ok. f_equal.
  - change (take 3 (a :: b :: c :: rest)) with [a; b; c].
    destruct (String.eqb_spec a "regulator"), (String.eqb_spec b "target"),
      (String.eqb_spec c "weight"); subst;
      first [by rewrite bool_decide_eq_true_2
            | by rewrite bool_decide_eq_false_2 by congruence].
  - destruct rest as [|x rest]; [done|]. cbn -[String.eqb].
    destruct (String.eqb_spec x "cell_type"); subst;
      first [by rewrite bool_decide_eq_true_2
            | by rewrite bool_decide_eq_false_2 by congruence].
Qed.

Lemma schema_ok_short cols : length cols < 3 → schema_ok cols = false.
Proof.
  unfold schema_ok. destruct cols as [|a [|b [|c rest]]]; cbn [length]; try lia;
    intros _; by rewrite bool_decide_eq_false_2 by (cbn; congruence).
Qed.

(** The check of the in-memory table accepts exactly the tables that
    meet the column contract. *)
Lemma check_df_ok d : check_df (Some d) = Ok tt ↔ schema_ok (columns (val d)) = true.
Proof.
  destruct (columns (val d)) as [|a [|b [|c rest]]] eqn:Hc.
  1-3: rewrite check_df_short, schema_ok_short by (rewrite ?Hc; cbn; lia); done.
  rewrite (check_df_three _ _ _ _ _ Hc), schema_ok_three.
  set (first3 := (_ =? "regulator")%string && _).
  set (fourth := match rest with [] => true | _ => _ end).
  by destruct first3, fourth.
Qed.

(** What the check raises when it rejects a table. *)
Lemma check_df_rejects d :
  schema_ok (columns (val d)) = false →
  ∃ e, check_df (Some d) = Raise e ∧
       (e = AssertionError "Columns must have names 'regulator', 'target', 'weight'"
        ∨ e = AssertionError "If there are 4 columns, the 4th must be 'cell_type'."
        ∨ (length (columns (val d)) < 3 ∧ ∃ msg, e = ValueError msg)).
Proof.
  destruct (columns (val d)) as [|a [|b [|c rest]]] eqn:Hc.
  1-3: intros _; eexists; split;
       [apply check_df_short; rewrite Hc; cbn; lia
       | right; right; split; [cbn; lia | by eexists]].
  rewrite schema_ok_three, (check_df_three _ _ _ _ _ Hc).
  set (first3 := (_ =? "regulator")%string && _).
  set (fourth := match rest with [] => true | _ => _ end).
  destruct first3, fourth; cbn; try done; intros _; eexists; (split; [done|]).
  - right. by left.
  - by left.
  - by left.
Qed.

End ConstructionFacts.

(** What a successful construction went through. *)
Lemma init_ok_inv w fresh grn_name subnetwork_names files df self :
  LightNetwork.__init__ w fresh grn_name subnetwork_names files df = Ok self →
  resolve_files w fresh grn_name subnetwork_names files = Ok (LightNetwork.files self)
  ∧ LightNetwork.df self = df
  ∧ ((length (val (LightNetwork.files self)) =? 0)%nat && bool_decide (df = None)) = false
  ∧ check_df df = Ok tt
  ∧ check_files w (val (LightNetwork.files self)) = Ok tt.
Proof.
  rewrite init_steps.
  destruct (resolve_files _ _ _ _ _) as [fl|e] eqn:Hres; [cbn|done].
  destruct (_ && _) eqn:Hempty; [done|].
  destruct (check_df df) as [[]|e] eqn:Hdf; [cbn|done].
  destruct (check_files w (val fl)) as [[]|e] eqn:Hfiles; [cbn|done].
  intros [= <-]. by cbn.
Qed.

(** ** C10 *)

(** C10. Subnetwork names without a named source: the constructor raises
    the ValueError of its first test whatever the environment, the file
    system, the explicit files and the in-memory table are. *)
Theorem init_subnetworks_without_source w fresh s ss files df :
  LightNetwork.__init__ w fresh None (s :: ss) files df =
  Raise (ValueError "Cannot find subnetworks unless 'grn_name' is specified.").
Proof. reflexivity. Qed.

(** ** C5 *)

(** C5. When a path among the explicit files, or among the files the
    arguments resolve to, does not exist, construction fails (and the
    constructor sends no query); with arguments that are valid otherwise
    (the files resolve, the in-memory table passes its check) the failure
    is the FileNotFoundError naming the first missing path. *)
Theorem init_missing_file w fresh grn_name subnetwork_names files df f :
  os_path_exists w f = false →
  (f ∈ val files
   ∨ ∃ fl, resolve_files w fresh grn_name subnetwork_names files = Ok fl ∧ f ∈ val fl) →
  ∃ e, LightNetwork.__init__ w fresh grn_name subnetwork_names files df = Raise e
       ∧ ∀ fl, resolve_files w fresh grn_name subnetwork_names files = Ok fl →
               check_df df = Ok tt →
               ∃ f', f' ∈ val fl ∧ os_path_exists w f' = false
                     ∧ e = FileNotFoundError ("File " +:+ f' +:+ " does not exist.").
Proof.
  intros Hf Hin. rewrite init_steps.
  destruct (resolve_files _ _ _ _ _) as [fl|e] eqn:Hres; cbn.
  - assert (f ∈ val fl) as Hfl.
    { destruct Hin as [Hin|(fl' & [= <-] & Hin)]; [|done].
      by eapply resolve_files_explicit. }
    assert ((length (val fl) =? 0)%nat = false) as ->.
    { destruct (val fl); [by apply elem_of_nil in Hfl | done]. }
    cbn [andb].
    destruct (check_files_missing w _ _ Hfl Hf) as (f' & Hf' & Hmiss & Hcheck).
    destruct (check_df df) as [[]|e]; cbn.
    + rewrite Hcheck. cbn. eexists. split; [done|].
      intros fl' [= <-] _. by exists f'.
    + exists e. split; [done|]. by intros fl' _ [=].
  - exists e. split; [done|]. by intros fl [=].
Qed.

Lemma init_missing_file_witness :
  ∃ e, LightNetwork.__init__ Ex.world 1 (Some "testsrc") []
         (PyObj 2 ["/data/nowhere.parquet"]) (Some Ex.in_memory) = Raise e
       ∧ ∀ fl, resolve_files Ex.world 1 (Some "testsrc") []
                 (PyObj 2 ["/data/nowhere.parquet"]) = Ok fl →
               check_df (Some Ex.in_memory) = Ok tt →
               ∃ f', f' ∈ val fl ∧ os_path_exists Ex.world f' = false
                     ∧ e = FileNotFoundError ("File " +:+ f' +:+ " does not exist.").
Proof.
  apply init_missing_file with (f := "/data/nowhere.parquet").
  - reflexivity.
  - left. apply (bool_decide_unpack _). vm_compute. exact I.
Defined.

(** ** C6 *)

(** C6, as stated, fails for file-backed constituents: the constructor
    only tests that a file exists, so a file whose columns are off the
    contract is accepted. *)
Lemma init_accepts_off_contract_file :
  fs Ex.world !! "/data/off.parquet" = Some (Parquet Ex.off_contract)
  ∧ schema_ok (columns Ex.off_contract) = false
  ∧ LightNetwork.__init__ Ex.world 1 None [] (PyObj 2 ["/data/off.parquet"]) None
    = Ok {| LightNetwork.files := PyObj 2 ["/data/off.parquet"]; LightNetwork.df := None |}.
Proof. split_and!; vm_compute; reflexivity. Qed.

(** C6, amended. An in-memory table off the column contract makes
    construction fail, at the table check and so before any file is
    looked at, provided the files resolve: with an AssertionError when the
    table has three columns or more, with pandas' ValueError for the
    length mismatch when it has fewer.  Files are not checked. *)
Theorem init_rejects_off_contract_table w fresh grn_name subnetwork_names files d fl :
  resolve_files w fresh grn_name subnetwork_names files = Ok fl →
  schema_ok (columns (val d)) = false →
  ∃ e, LightNetwork.__init__ w fresh grn_name subnetwork_names files (Some d) = Raise e
       ∧ (e = AssertionError "Columns must have names 'regulator', 'target', 'weight'"
          ∨ e = AssertionError "If there are 4 columns, the 4th must be 'cell_type'."
          ∨ (length (columns (val d)) < 3 ∧ ∃ msg, e = ValueError msg)).
Proof.
  intros Hres Hbad. rewrite init_steps, Hres.
  change (Ok fl ≫= ?k) with (k fl). cbv beta.
  rewrite (bool_decide_eq_false_2 (Some d = None)), andb_false_r by done.
  destruct (check_df_rejects d Hbad) as (e & -> & He). by exists e.
Qed.

Lemma init_rejects_off_contract_table_witness :
  ∃ e, LightNetwork.__init__ Ex.world 1 (Some "testsrc") ["a.parquet"] Ex.no_files
         (Some (PyObj 9 {| columns := ["regulator"; "target"; "score"]; rows := [] |}))
       = Raise e
       ∧ (e = AssertionError "Columns must have names 'regulator', 'target', 'weight'"
          ∨ e = AssertionError "If there are 4 columns, the 4th must be 'cell_type'."
          ∨ (length ["regulator"; "target"; "score"] < 3 ∧ ∃ msg, e = ValueError msg)).
Proof.
  apply (init_rejects_off_contract_table Ex.world 1 (Some "testsrc") ["a.parquet"] Ex.no_files
           (PyObj 9 {| columns := ["regulator"; "target"; "score"]; rows := [] |})
           (PyObj 1 ["/data/testsrc/networks/a.parquet"])).
  - vm_compute. reflexivity.
  - vm_compute. reflexivity.
Defined.

(** ** C7 *)

(** C7. The three invalid-argument failures: a field outside the three
    queryable ones fails the assertion of [get_all_one_field]; a
    construction with no source, no file and no table raises ValueError
    (with or without subnetwork names); [save] raises ValueError unless
    the lower-cased file name ends in .parquet. *)
Theorem invalid_arguments :
  (∀ w self field,
     field ∉ ["regulator"; "target"; "cell_type"] →
     LightNetwork.get_all_one_field w self field =
     Raise (AssertionError
              " Can only get unique vals for 'regulator', 'target', or 'cell_type' "))
  ∧ (∀ w fresh subnetwork_names files,
       val files = [] →
       ∃ msg, LightNetwork.__init__ w fresh None subnetwork_names files None =
              Raise (ValueError msg))
  ∧ (∀ w self filename,
       endswith (lower filename) ".parquet" = false →
       LightNetwork.save w self filename =
       Raise (ValueError "Filename must end with .parquet.")).
Proof.
  split_and!.
  - intros w self field Hfield. unfold LightNetwork.get_all_one_field.
    by rewrite bool_decide_eq_false_2.
  - intros w fresh subnetwork_names files Hfiles. unfold LightNetwork.__init__.
    destruct subnetwork_names as [|s ss]; cbn.
    + rewrite Hfiles. cbn. by eexists.
    + by eexists.
  - intros w self filename Hext. unfold LightNetwork.save. by rewrite Hext.
Qed.

Lemma invalid_arguments_witness :
  LightNetwork.get_all_one_field Ex.world
    {| LightNetwork.files := Ex.no_files; LightNetwork.df := Some Ex.in_memory |} "weight"
  = Raise (AssertionError
             " Can only get unique vals for 'regulator', 'target', or 'cell_type' ")
  ∧ (∃ msg, LightNetwork.__init__ Ex.world 1 None [] Ex.no_files None
            = Raise (ValueError msg))
  ∧ LightNetwork.save Ex.world
      {| LightNetwork.files := Ex.no_files; LightNetwork.df := Some Ex.in_memory |}
      "edges.parquet.csv"
    = Raise (ValueError "Filename must end with .parquet.").
Proof.
  destruct invalid_arguments as (Hfield & Hempty & Hsave). split_and!.
  - apply Hfield. apply (bool_decide_unpack _). vm_compute. exact I.
  - apply Hempty. reflexivity.
  - apply Hsave. reflexivity.
Defined.

(** ** C8 *)

(** C8, as stated, fails on its first part: [copy] runs the constructor,
    which asks the file system whether each file exists.  An instance
    built while its file was there can be copied then, and cannot once
    the file is gone. *)
Lemma copy_reads_file_system :
  let self := {| LightNetwork.files := PyObj 2 ["/data/a_again.parquet"];
                 LightNetwork.df := None |} in
  LightNetwork.__init__ Ex.world 1 None [] (PyObj 2 ["/data/a_again.parquet"]) None
  = Ok self
  ∧ LightNetwork.copy Ex.world 3 self = Ok self
  ∧ LightNetwork.copy Ex.world_later 3 self
    = Raise (FileNotFoundError "File /data/a_again.parquet does not exist.").
Proof. split_and!; vm_compute; reflexivity. Qed.

(** C8, amended. The files of a constructed instance exist in the world
    it was built in; and in any world where they exist (that one
    included) [copy] succeeds, reading no table, with an instance whose
    [files] and [df] are the very objects of the original, so that
    [get_all] returns the same on both. *)
Theorem copy_shares_constituents w fresh grn_name subnetwork_names files df self :
  LightNetwork.__init__ w fresh grn_name subnetwork_names files df = Ok self →
  (∀ f, f ∈ val (LightNetwork.files self) → os_path_exists w f = true)
  ∧ ∀ w' fresh',
      (∀ f, f ∈ val (LightNetwork.files self) → os_path_exists w' f = true) →
      ∃ c, LightNetwork.copy w' fresh' self = Ok c
           ∧ LightNetwork.files c = LightNetwork.files self
           ∧ LightNetwork.df c = LightNetwork.df self
           ∧ LightNetwork.get_all w' c = LightNetwork.get_all w' self.
Proof.
  intros (Hres & Hdf & Hempty & Hcheck & Hfiles)%init_ok_inv.
  split; [by apply check_files_ok|].
  intros w' fresh' Hexist. exists self. split; [|done].
  unfold LightNetwork.copy. rewrite init_steps. cbn [resolve_files].
  unfold resolve_files. cbn.
  rewrite Hdf, Hempty, Hcheck. cbn.
  apply check_files_ok in Hexist. rewrite Hexist. cbn. subst df. by destruct self.
Qed.

Lemma copy_shares_constituents_witness :
  ∃ c, LightNetwork.copy Ex.world 5
         {| LightNetwork.files := PyObj 1 ["/data/testsrc/networks/a.parquet";
                                           "/data/testsrc/networks/b.parquet"];
            LightNetwork.df := Some Ex.in_memory |} = Ok c
       ∧ oid (LightNetwork.files c) = 1.
Proof.
  destruct (copy_shares_constituents Ex.world 1 (Some "testsrc") [] Ex.no_files
              (Some Ex.in_memory)
              {| LightNetwork.files := PyObj 1 ["/data/testsrc/networks/a.parquet";
                                                "/data/testsrc/networks/b.parquet"];
                 LightNetwork.df := Some Ex.in_memory |}) as [Hexist Hcopy].
  - vm_compute. reflexivity.
  - destruct (Hcopy Ex.world 5 Hexist) as (c & Hc & Hf & _).
    exists c. split; [exact Hc|]. rewrite Hf. reflexivity.
Defined.

(** ** C9 *)

(** [validate_grn] never returns: without a table it calls the loader
    with a keyword the loader does not take; with a table it indexes the
    DataFrame with a key pandas refuses. *)
Lemma validate_grn_always_raises w grn_name subnetwork_name grn_df :
  ∃ e, validate_grn w grn_name subnetwork_name grn_df = Raise e.
Proof.
  unfold validate_grn. destruct grn_df as [d|]; cbn; by eexists.
Qed.

(** C9 (the code departs from it). On a table that meets the column
    contract and has one regulator and one target, the check should
    return [True]; it raises at [grn_df[:, "regulator"]] instead.  And on
    a table with two regulators and one target it raises the same
    indexing error, not the ValueError written for that case. *)
Theorem validate_grn_raises_on_valid_table :
  validate_grn Ex.world "testsrc" "a" (Some Ex.tissue_a)
  = Raise (InvalidIndexError "(slice(None, None, None), 'regulator')")
  ∧ validate_grn Ex.world "testsrc" "ab"
      (Some {| columns := Ex.cols3; rows := [Ex.e1; Ex.e2] |})
    = Raise (InvalidIndexError "(slice(None, None, None), 'regulator')")
  ∧ validate_grn Ex.world "testsrc" "a" None
    = Raise (TypeError
        "load_grn_by_subnetwork() got an unexpected keyword argument 'do_validate'").
Proof. split_and!; reflexivity. Qed.

(** * Further properties *)

(** ** The location of the collection *)

Section Location.

Lemma list_subnetworks_listing w g root entries :
  environ w !! "GRN_PATH" = Some root →
  fs w !! os_path_join root [g; "networks"] = Some (Dir entries) →
  list_subnetworks w g = Ok (filter (fun s => visible s) entries).
Proof.
  intros Henv Hdir. unfold list_subnetworks, os_environ_getitem.
  rewrite Henv, bind_Ok. unfold os_listdir. by rewrite Hdir.
Qed.

(** X1. After a successful [set_grn_location(path)] the location reads
    back as [path], the file system and every other variable are
    untouched, and [list_subnetworks] of a source whose networks
    directory exists under [path] returns exactly the entries of that
    directory that do not start with a dot. *)
Theorem set_location_then_list w path g entries w' printed :
  set_grn_location w path = Ok (w', printed) →
  fs w !! os_path_join path [g; "networks"] = Some (Dir entries) →
  get_grn_location w' = Ok path
  ∧ fs w' = fs w
  ∧ (∀ k, k ≠ "GRN_PATH" → environ w' !! k = environ w !! k)
  ∧ ∃ l, list_subnetworks w' g = Ok l
         ∧ ∀ s, s ∈ l ↔ s ∈ entries ∧ startswith s "." = false.
Proof.
  unfold set_grn_location. destruct (negb _); [done|]. intros [= <- _] Hdir.
  split_and!.
  - unfold get_grn_location, os_environ_getitem. cbn. by rewrite lookup_insert_eq.
  - done.
  - intros k Hk. cbn. by rewrite lookup_insert_ne.
  - eexists. split.
    + apply (list_subnetworks_listing _ g path entries); [|done].
      cbn. by rewrite lookup_insert_eq.
    + intros s. rewrite list_elem_of_filter. unfold visible.
      rewrite negb_True, Is_true_false. tauto.
Qed.

Lemma set_location_then_list_witness :
  get_grn_location Ex2.located = Ok "/data"
  ∧ fs Ex2.located = fs Ex2.fresh_process
  ∧ (∀ k, k ≠ "GRN_PATH" → environ Ex2.located !! k = environ Ex2.fresh_process !! k)
  ∧ ∃ l, list_subnetworks Ex2.located "testsrc" = Ok l
         ∧ ∀ s, s ∈ l ↔ s ∈ ["a.parquet"; "b.parquet"; ".hidden"] ∧ startswith s "." = false.
Proof.
  apply (set_location_then_list Ex2.fresh_process "/data" "testsrc" ["a.parquet"; "b.parquet"; ".hidden"]
           Ex2.located
           ["Checked for an example network and didn't find it; this is a bad sign. Try debug_grn_location() for more help."]).
  - vm_compute. reflexivity.
  - vm_compute. reflexivity.
Defined.

(** X2. [set_grn_location(path)] succeeds exactly when
    [path/published_networks.csv] is a regular file; the example network
    it also looks for is not required. *)
Theorem set_location_needs_catalog w path :
  (∃ w' printed, set_grn_location w path = Ok (w', printed))
  ↔ os_path_isfile w (os_path_join path ["published_networks.csv"]) = true.
Proof.
  unfold set_grn_location. destruct (os_path_isfile w _); cbn.
  - split; [done|]. intros _. by do 2 eexists.
  - split; [by intros (? & ? & [=])|done].
Qed.

Lemma existsb_false {A} (f : A → bool) l :
  existsb f l = false ↔ ∀ x, x ∈ l → f x = false.
Proof.
  induction l as [|y l IH]; cbn.
  - split; [by intros _ x ?%elem_of_nil|done].
  - rewrite orb_false_iff, IH. split.
    + intros [Hy Hl] x [->|Hx]%elem_of_cons; auto.
    + intros H. split; [apply H; by left|]. intros x Hx. apply H. by right.
Qed.

(** X3. [list_subnetworks] raises FileNotFoundError with the help text
    exactly when [GRN_PATH] is unset, or the networks directory of the
    source names nothing and no path above it is a file.  A path that is
    a file, or that leads through one, is not reported that way: the
    NotADirectoryError of [os.listdir] passes through. *)
Theorem list_subnetworks_not_found w g :
  list_subnetworks w g = Raise (FileNotFoundError not_found_help)
  ↔ environ w !! "GRN_PATH" = None
    ∨ ∃ root, environ w !! "GRN_PATH" = Some root
              ∧ fs w !! os_path_join root [g; "networks"] = None
              ∧ ∀ a, a ∈ ancestors (os_path_join root [g; "networks"]) →
                     os_path_isfile w a = false.
Proof.
  unfold list_subnetworks, os_environ_getitem, os_listdir.
  destruct (environ w !! "GRN_PATH") as [root|]; [|split; [by left|done]].
  rewrite bind_Ok.
  destruct (fs w !! os_path_join root [g; "networks"]) as [n|] eqn:Hdir.
  - split; [by destruct n|]. intros [|(? & [= <-] & ? & _)]; congruence.
  - destruct (existsb _ _) eqn:Hup.
    + split; [done|]. intros [|(? & [= <-] & _ & Hnone)]; [done|].
      apply existsb_false in Hnone. congruence.
    + split; [|done]. intros _. right. exists root. split_and!; [done..|].
      by apply existsb_false.
Qed.

End Location.

(** ** Construction *)

Section ConstructionMore.

Lemma existsb_ext {A} (f g : A → bool) l :
  (∀ x, f x = g x) → existsb f l = existsb g l.
Proof. intros H. induction l as [|x l IH]; [done|]. cbn. by rewrite H, IH. Qed.

(** X4. The constructor returns an instance exactly when the file list
    resolves, at least one of files and table is given, the table (if
    any) meets the column contract and every file exists; the instance
    then holds the resolved list and the very table passed in. *)
Theorem init_succeeds_iff w fresh grn_name subnetwork_names files df self :
  LightNetwork.__init__ w fresh grn_name subnetwork_names files df = Ok self
  ↔ resolve_files w fresh grn_name subnetwork_names files = Ok (LightNetwork.files self)
    ∧ LightNetwork.df self = df
    ∧ (val (LightNetwork.files self) ≠ [] ∨ df ≠ None)
    ∧ (∀ d, df = Some d → schema_ok (columns (val d)) = true)
    ∧ (∀ f, f ∈ val (LightNetwork.files self) → os_path_exists w f = true).
Proof.
  split.
  - intros (Hres & Hdf & Hempty & Hcheck & Hfiles)%init_ok_inv. split_and!; [done..| | |].
    + apply andb_false_iff in Hempty as [Hlen|Hnone].
      * left. intros Hnil. by rewrite Hnil in Hlen.
      * right. intros ->. by rewrite bool_decide_eq_true_2 in Hnone.
    + intros d ->. by apply check_df_ok.
    + by apply check_files_ok.
  - intros (Hres & Hdf & Hsome & Hschema & Hexist). rewrite init_steps, Hres, bind_Ok.
    assert (((length (val (LightNetwork.files self)) =? 0)%nat && bool_decide (df = None))
            = false) as ->.
    { apply andb_false_iff. destruct Hsome as [Hne|Hne].
      - left. by destruct (val (LightNetwork.files self)).
      - right. by apply bool_decide_eq_false_2. }
    assert (check_df df = Ok tt) as ->.
    { destruct df as [d|]; [|done]. by apply check_df_ok, Hschema. }
    rewrite bind_Ok. apply check_files_ok in Hexist. rewrite Hexist, bind_Ok.
    subst df. by destruct self.
Qed.

(** X5. With [GRN_PATH] unset, constructing from a named source fails
    whatever else is passed: with the FileNotFoundError of
    [list_subnetworks] when no subnetwork is named, and with the bare
    KeyError of the environment lookup when some are. *)
Theorem init_without_grn_path w fresh g s ss files df :
  environ w !! "GRN_PATH" = None →
  LightNetwork.__init__ w fresh (Some g) [] files df = Raise (FileNotFoundError not_found_help)
  ∧ LightNetwork.__init__ w fresh (Some g) (s :: ss) files df = Raise (KeyError "GRN_PATH").
Proof.
  intros Henv. unfold LightNetwork.__init__, list_subnetworks, os_environ_getitem.
  cbn. by rewrite Henv.
Qed.

Lemma init_without_grn_path_witness :
  LightNetwork.__init__ (mkWorld ∅ (fs Ex.world)) 1 (Some "testsrc") [] Ex.no_files None
  = Raise (FileNotFoundError not_found_help)
  ∧ LightNetwork.__init__ (mkWorld ∅ (fs Ex.world)) 1 (Some "testsrc") ["a"] Ex.no_files None
    = Raise (KeyError "GRN_PATH").
Proof. apply init_without_grn_path. reflexivity. Defined.

(** X6. A network built from a named source with no subnetwork named
    holds the files passed in followed by the path of every visible
    entry of the source's networks directory, in directory order, in a
    list of its own; and each of them exists. *)
Theorem init_named_source w fresh g root entries files df self :
  environ w !! "GRN_PATH" = Some root →
  fs w !! os_path_join root [g; "networks"] = Some (Dir entries) →
  LightNetwork.__init__ w fresh (Some g) [] files df = Ok self →
  val (LightNetwork.files self)
  = (val files ++ map (fun s => os_path_join root [g; "networks"; s])
                      (filter (fun s => visible s) entries))%list
  ∧ oid (LightNetwork.files self) = fresh
  ∧ ∀ f, f ∈ val (LightNetwork.files self) → os_path_exists w f = true.
Proof.
  intros Henv Hdir (Hres & _ & _ & _ & Hfiles)%init_ok_inv.
  split_and!; [| |by apply check_files_ok].
  all: revert Hres; unfold resolve_files; cbn [bool_decide andb length Nat.eqb];
    rewrite bool_decide_eq_false_2 by done; cbn [andb length Nat.eqb];
    rewrite (list_subnetworks_listing w g root entries) by done; rewrite bind_Ok;
    set (l := filter _ entries);
    assert (map_result
              (fun s => root0 ← os_environ_getitem w "GRN_PATH";
                        Ok (os_path_join root0 [g; "networks"; s])) l
            = Ok (map (fun s => os_path_join root [g; "networks"; s]) l)) as ->
      by (apply map_result_Forall2, Forall2_fmap_r, Forall_Forall2_diag, Forall_forall;
          intros s _; unfold os_environ_getitem; by rewrite Henv);
    rewrite bind_Ok; by intros [= <-].
Qed.

Lemma init_named_source_witness :
  val (LightNetwork.files Ex.scenario)
  = (val Ex.no_files
     ++ map (fun s => os_path_join "/data" ["testsrc"; "networks"; s])
            (filter (fun s => visible s) ["a.parquet"; "b.parquet"; ".hidden"]))%list
  ∧ oid (LightNetwork.files Ex.scenario) = 1
  ∧ ∀ f, f ∈ val (LightNetwork.files Ex.scenario) → os_path_exists Ex.world f = true.
Proof.
  apply (init_named_source Ex.world 1 "testsrc" "/data" ["a.parquet"; "b.parquet"; ".hidden"] Ex.no_files
           (Some Ex.in_memory)).
  - vm_compute. reflexivity.
  - vm_compute. reflexivity.
  - vm_compute. reflexivity.
Defined.

(** X7. The constructor asks the file system which paths exist and what
    a directory lists, and nothing else: in two states that agree on the
    environment, on existence and on listings it returns the same
    instance or raises the same exception, whatever the files store. *)
Theorem init_ignores_file_contents w w' fresh grn_name subnetwork_names files df :
  environ w = environ w' →
  (∀ p, os_path_exists w p = os_path_exists w' p) →
  (∀ p, os_listdir w p = os_listdir w' p) →
  LightNetwork.__init__ w fresh grn_name subnetwork_names files df
  = LightNetwork.__init__ w' fresh grn_name subnetwork_names files df.
Proof.
  intros Henv Hexist Hlist. rewrite !init_steps.
  assert (∀ k, os_environ_getitem w k = os_environ_getitem w' k) as Hget.
  { intros k. unfold os_environ_getitem. by rewrite Henv. }
  assert (resolve_files w fresh grn_name subnetwork_names files
          = resolve_files w' fresh grn_name subnetwork_names files) as ->.
  { unfold resolve_files. destruct (_ && _); [done|]. destruct grn_name as [g|]; [|done].
    assert (list_subnetworks w g = list_subnetworks w' g) as ->.
    { unfold list_subnetworks. rewrite Hget. destruct (os_environ_getitem w' _); [|done].
      cbn. by rewrite Hlist. }
    destruct (if (length subnetwork_names =? 0)%nat then _ else _) as [names|e]; [|done].
    rewrite !bind_Ok.
    assert (map_result
              (fun s => root ← os_environ_getitem w "GRN_PATH";
                        Ok (os_path_join root [g; "networks"; s])) names
            = map_result
                (fun s => root ← os_environ_getitem w' "GRN_PATH";
                          Ok (os_path_join root [g; "networks"; s])) names) as ->; [|done].
    by rewrite Hget. }
  destruct (resolve_files w' _ _ _ _) as [fl|e]; [|done]. rewrite !bind_Ok.
  destruct (_ && _); [done|]. destruct (check_df df); [|done]. rewrite !bind_Ok.
  assert (check_files w (val fl) = check_files w' (val fl)) as ->; [|done].
  unfold check_files. induction (val fl) as [|f l IH]; [done|]. cbn.
  by rewrite Hexist, IH.
Qed.

Lemma init_ignores_file_contents_witness :
  LightNetwork.__init__ Ex.world 1 (Some "testsrc") [] Ex.no_files None
  = LightNetwork.__init__ Ex2.rewritten 1 (Some "testsrc") [] Ex.no_files None.
Proof.
  apply init_ignores_file_contents.
  - reflexivity.
  - intros p. unfold os_path_exists, Ex2.rewritten. cbn [fs].
    destruct (decide (p = "/data/testsrc/networks/a.parquet")) as [->|Hp].
    + vm_compute. reflexivity.
    + by rewrite lookup_insert_ne.
  - intros p.
    assert (∀ a, os_path_isfile Ex.world a = os_path_isfile Ex2.rewritten a) as Hfile.
    { intros a. unfold os_path_isfile, Ex2.rewritten. cbn [fs].
      destruct (decide (a = "/data/testsrc/networks/a.parquet")) as [->|Ha].
      - vm_compute. reflexivity.
      - by rewrite lookup_insert_ne. }
    unfold os_listdir. rewrite (existsb_ext _ _ (ancestors p) Hfile).
    unfold Ex2.rewritten. cbn [fs].
    destruct (decide (p = "/data/testsrc/networks/a.parquet")) as [->|Hp].
    + vm_compute. reflexivity.
    + by rewrite lookup_insert_ne.
Defined.



End ConstructionMore.

(** ** Queries *)

Section QueriesMore.
Import duckdb.

Lemma file_tables_exist w files :
  Forall (fun f => ∃ t, fs w !! f = Some (Parquet t)) files →
  ∃ ts, file_tables w files ts.
Proof.
  induction 1 as [|f files [t Ht] _ [ts IH]]; [exists []; constructor|].
  exists (t :: ts). by constructor.
Qed.

Lemma elem_of_file_tables w files ts t :
  file_tables w files ts →
  t ∈ ts ↔ ∃ f, f ∈ files ∧ fs w !! f = Some (Parquet t).
Proof.
  induction 1 as [|f u files ts Hf Hts IH].
  - split; [by intros ?%elem_of_nil | by intros (f & ?%elem_of_nil & _)].
  - rewrite elem_of_cons, IH. split.
    + intros [->|(f' & Hf' & Ht)]; [exists f; split; [by left|done]|].
      exists f'. split; [by right|done].
    + intros (f' & [->|Hf']%elem_of_cons & Ht).
      * left. rewrite Hf in Ht. by injection Ht.
      * right. by exists f'.
Qed.

Lemma elem_of_constituents self ts t : t ∈ constituents self ts ↔ constituent self ts t.
Proof.
  unfold constituents, constituent, memory_tables. rewrite elem_of_app.
  destruct (LightNetwork.df self) as [d|].
  - rewrite list_elem_of_singleton. split.
    + intros [Ht| ->]; [by left|right; by exists d].
    + intros [Ht|(d' & [= <-] & ->)]; [by left|by right].
  - rewrite elem_of_nil. split.
    + intros [Ht|Hf]; [by left|done].
    + intros [Ht|(d' & Hd' & _)]; [by left|done].
Qed.



















(** X15. [get_all_one_field] does not depend on the order of the files
    nor on how often a file is listed: two networks with the same
    in-memory table whose file lists have the same members (plain names
    of parquet files in which the column, where present, is of one type)
    return the same set. *)
Theorem one_field_ignores_file_order w self self' field k :
  field ∈ ["regulator"; "target"; "cell_type"] →
  LightNetwork.df self' = LightNetwork.df self →
  (∀ f, f ∈ val (LightNetwork.files self') ↔ f ∈ val (LightNetwork.files self)) →
  Forall (fun f => plain_name f = true
                   ∧ ∃ t, fs w !! f = Some (Parquet t) ∧ field_of_kind field k t = true)
         (val (LightNetwork.files self)) →
  Forall (fun t => field_of_kind field k t = true) (memory_tables self) →
  ∃ s, LightNetwork.get_all_one_field w self field = Ok s
       ∧ LightNetwork.get_all_one_field w self' field = Ok s.
Proof.
  intros Hfield Hdf Hsame Hfiles Hmem.
  assert (Forall (fun f => plain_name f = true
                           ∧ ∃ t, fs w !! f = Some (Parquet t)
                                  ∧ field_of_kind field k t = true)
            (val (LightNetwork.files self'))) as Hfiles'.
  { rewrite Forall_forall in *. intros f Hf. by apply Hfiles, Hsame. }
  assert (Forall (fun t => field_of_kind field k t = true) (memory_tables self')) as Hmem'.
  { unfold memory_tables in *. by rewrite Hdf. }
  assert (∀ fl ts, Forall (fun f => plain_name f = true
                                    ∧ ∃ t, fs w !! f = Some (Parquet t)
                                           ∧ field_of_kind field k t = true) fl →
                   file_tables w fl ts →
                   Forall (fun t => field_of_kind field k t = true) ts) as Hkinds.
  { intros fl ts Hfl Htables. apply Forall_forall. intros t Ht.
    apply (elem_of_file_tables _ _ _ _ Htables) in Ht as (f & Hf & Hft).
    rewrite Forall_forall in Hfl. destruct (Hfl f Hf) as (_ & t' & Hft' & Hk). congruence. }
  destruct (file_tables_exist w (val (LightNetwork.files self))) as [ts Hts].
  { eapply Forall_impl; [exact Hfiles|]. intros f (_ & t & ? & _). by exists t. }
  destruct (file_tables_exist w (val (LightNetwork.files self'))) as [ts' Hts'].
  { eapply Forall_impl; [exact Hfiles'|]. intros f (_ & t & ? & _). by exists t. }
  destruct (one_field_values w self ts field) as (s & Hs & _ & Hs_elem); [done| |done| |].
  { eapply Forall_impl; [exact Hfiles|]. by intros f [? _]. }
  { apply (field_of_kind_labels field k), Forall_app.
    split; [exact (Hkinds _ _ Hfiles Hts)|done]. }
  destruct (one_field_values w self' ts' field) as (s' & Hs' & _ & Hs'_elem);
    [done| |done| |].
  { eapply Forall_impl; [exact Hfiles'|]. by intros f [? _]. }
  { apply (field_of_kind_labels field k), Forall_app.
    split; [exact (Hkinds _ _ Hfiles' Hts')|done]. }
  exists s. split; [done|]. rewrite Hs'. f_equal. apply set_eq. intros c.
  rewrite Hs_elem, Hs'_elem. unfold constituent. rewrite Hdf.
  assert (∀ t, t ∈ ts' ↔ t ∈ ts) as Htables.
  { intros t. rewrite (elem_of_file_tables _ _ _ _ Hts), (elem_of_file_tables _ _ _ _ Hts').
    split; intros (f & Hf & Ht); exists f; (split; [by apply Hsame|done]). }
  split; intros (t & [Ht|Hd] & Hrest); exists t; (split; [|done]);
    first [left; by apply Htables | by right].
Qed.

Lemma one_field_ignores_file_order_witness :
  ∃ s, LightNetwork.get_all_one_field Ex.world Ex.scenario "regulator" = Ok s
       ∧ LightNetwork.get_all_one_field Ex.world Ex2.reordered "regulator" = Ok s.
Proof.
  apply (one_field_ignores_file_order Ex.world Ex.scenario Ex2.reordered "regulator" KText).
  - apply (bool_decide_unpack _). vm_compute. exact I.
  - reflexivity.
  - intros f. cbn. rewrite !elem_of_cons, elem_of_nil. tauto.
  - constructor;
      [split; [reflexivity|exists Ex.tissue_a; split; vm_compute; reflexivity]|].
    constructor;
      [split; [reflexivity|exists Ex.tissue_b; split; vm_compute; reflexivity]|].
    constructor.
  - repeat constructor.
Defined.



End QueriesMore.
